(** * Hook scripts of cadre-devkit-claude: a shallow embedding

    The repository ships four hook scripts that an agent host runs around
    a tool action:

    - [hooks/security/dangerous-command-blocker.py]
    - [hooks/security/sensitive-file-guard.py]
    - [hooks/formatting/auto-format.py]
    - [hooks/testing/test-on-change.py]

    Each script reads one JSON document from standard input, inspects
    [tool_input.command] or [tool_input.file_path], possibly spawns one
    external command, prints to standard output or standard error and ends
    with [sys.exit].  Below, a script is a computation in a small monad
    that threads the two output streams and the list of spawned commands
    and that can raise a Python exception ([SystemExit] included).

    Text is modelled by [string]: one [ascii] per code point, which covers
    the code points below 256.  [str.lower], the class [\s] and the class
    [.] are the restrictions of the Python ones to that range. *)

From Stdlib Require Import ZArith Ascii.
From stdpp Require Import base option list gmap strings.

Local Open Scope Z_scope.
Set Warnings "-register-all,-clear-no-such-hyp".

(** ** Text: the [str] operations the scripts use *)

Module Text.

(** [str.lower] on one code point below 256: A-Z and the Latin-1
    capitals other than the multiplication sign move up by 32. *)
Definition lower_char (c : ascii) : ascii :=
  let n := N_of_ascii c in
  if ((65 <=? n) && (n <=? 90) ||
      (192 <=? n) && (n <=? 222) && negb (n =? 215))%N
  then ascii_of_N (n + 32)
  else c.

Fixpoint lower (s : string) : string :=
  match s with
  | EmptyString => EmptyString
  | String c s' => String (lower_char c) (lower s')
  end.

Fixpoint startswith (s prefix : string) : bool :=
  match prefix, s with
  | EmptyString, _ => true
  | String _ _, EmptyString => false
  | String a prefix', String b s' =>
      if Ascii.eqb a b then startswith s' prefix' else false
  end.

(** [needle in hay] *)
Fixpoint str_in (needle hay : string) : bool :=
  startswith hay needle ||
  match hay with
  | EmptyString => false
  | String _ hay' => str_in needle hay'
  end.

(** [s.rfind(c)] for a one-character [c], the positions counted from
    [i]; -1 when [c] does not occur. *)
Fixpoint rfind_from (i : Z) (c : ascii) (s : string) : Z :=
  match s with
  | EmptyString => -1
  | String a s' =>
      let r := rfind_from (i + 1) c s' in
      if 0 <=? r then r else if Ascii.eqb a c then i else -1
  end.

Definition rfind (c : ascii) (s : string) : Z := rfind_from 0 c s.

(** [s[n:]] *)
Fixpoint slice_from (n : nat) (s : string) : string :=
  match n, s with
  | O, _ => s
  | S n', String _ s' => slice_from n' s'
  | S _, EmptyString => EmptyString
  end.

(** [s[:n]] *)
Fixpoint slice_to (n : nat) (s : string) : string :=
  match n, s with
  | S n', String c s' => String c (slice_to n' s')
  | _, _ => EmptyString
  end.

(** The [while filenameIndex < dotIndex] loop of [genericpath._splitext],
    run for the [k] positions from [i] on: is there a character other
    than the dot? *)
Fixpoint name_before_dot (p : string) (i k : nat) : bool :=
  match k with
  | O => false
  | S k' =>
      match String.get i p with
      | Some c => if Ascii.eqb c "." then name_before_dot p (S i) k' else true
      | None => true
      end
  end.

(** [os.path.splitext] of [posixpath]: separator [/], no alternative
    separator, extension separator [.]. *)
Definition splitext (p : string) : string * string :=
  let sepIndex := rfind "/" p in
  let dotIndex := rfind "." p in
  if (sepIndex <? dotIndex) &&
     name_before_dot p (Z.to_nat (sepIndex + 1))
       (Z.to_nat (dotIndex - (sepIndex + 1)))
  then (slice_to (Z.to_nat dotIndex) p, slice_from (Z.to_nat dotIndex) p)
  else (p, EmptyString).

(** Truth value of a [str]. *)
Definition nonempty (s : string) : bool :=
  match s with EmptyString => false | String _ _ => true end.

End Text.

(** ** Regular expressions: the fragment of [re] the command rules use *)

Module Re.

Inductive regex : Type :=
| Void
| Eps
| Lit (c : ascii)
| Dot
| Space
| Alt (r1 r2 : regex)
| Cat (r1 r2 : regex)
| Star (r : regex).

(** [x+] *)
Definition Plus (r : regex) : regex := Cat r (Star r).

(** [\s] on code points below 256. *)
Definition is_space (c : ascii) : bool :=
  let n := N_of_ascii c in
  ((9 <=? n) && (n <=? 13) || (28 <=? n) && (n <=? 32) ||
   (n =? 133) || (n =? 160))%N.

(** [.] without [re.DOTALL]: anything but the line feed. *)
Definition is_dot (c : ascii) : bool := negb (Ascii.eqb c "010").

(** *** Reading a pattern *)

Inductive token : Type :=
| TAtom (r : regex)
| TPlus
| TStar
| TUnsupported.

Definition char_token (c : ascii) : token :=
  if Ascii.eqb c "." then TAtom Dot
  else if Ascii.eqb c "+" then TPlus
  else if Ascii.eqb c "*" then TStar
  else if existsb (Ascii.eqb c)
            ["\"; "^"; "$"; "?"; "{"; "}"; "["; "]"; "|"; "("; ")"]%char
  then TUnsupported
  else TAtom (Lit c).

Definition escape_token (c : ascii) : token :=
  if Ascii.eqb c "s" then TAtom Space
  else if Ascii.eqb c "." then TAtom (Lit ".")
  else TUnsupported.

Fixpoint tokens (s : string) : list token :=
  match s with
  | EmptyString => []
  | String c s1 =>
      match s1 with
      | String e s2 =>
          if Ascii.eqb c "\" then escape_token e :: tokens s2
          else char_token c :: tokens s1
      | EmptyString => [char_token c]
      end
  end.

Fixpoint build (ts : list token) : option regex :=
  match ts with
  | [] => Some Eps
  | TAtom a :: ts1 =>
      match ts1 with
      | TPlus :: ts2 => Cat (Plus a) <$> build ts2
      | TStar :: ts2 => Cat (Star a) <$> build ts2
      | _ => Cat a <$> build ts1
      end
  | _ => None
  end.

(** [re.compile] on the fragment: literals, [.], [\s], [\.], and the
    greedy [+] and [*] after one of them.  [None] on anything else. *)
Definition compile (pattern : string) : option regex :=
  build (tokens pattern).

(** *** Matching *)

Fixpoint nullable (r : regex) : bool :=
  match r with
  | Void | Lit _ | Dot | Space => false
  | Eps | Star _ => true
  | Alt r1 r2 => nullable r1 || nullable r2
  | Cat r1 r2 => nullable r1 && nullable r2
  end.

Fixpoint deriv (a : ascii) (r : regex) : regex :=
  match r with
  | Void | Eps => Void
  | Lit c => if Ascii.eqb a c then Eps else Void
  | Dot => if is_dot a then Eps else Void
  | Space => if is_space a then Eps else Void
  | Alt r1 r2 => Alt (deriv a r1) (deriv a r2)
  | Cat r1 r2 =>
      if nullable r1
      then Alt (Cat (deriv a r1) r2) (deriv a r2)
      else Cat (deriv a r1) r2
  | Star r1 => Cat (deriv a r1) (Star r1)
  end.

(** A match that starts at the first position of [s] (what [re.match]
    decides). *)
Fixpoint match_here (r : regex) (s : string) : bool :=
  nullable r ||
  match s with
  | EmptyString => false
  | String a s' => match_here (deriv a r) s'
  end.

(** [re.search]: try every start position from the left. *)
Fixpoint search (r : regex) (s : string) : bool :=
  match_here r s ||
  match s with
  | EmptyString => false
  | String _ s' => search r s'
  end.

(** The language of a pattern, as a relation. *)
Inductive Matches : regex -> string -> Prop :=
| MEps : Matches Eps EmptyString
| MLit c : Matches (Lit c) (String c EmptyString)
| MDot c : is_dot c = true -> Matches Dot (String c EmptyString)
| MSpace c : is_space c = true -> Matches Space (String c EmptyString)
| MAltL r1 r2 s : Matches r1 s -> Matches (Alt r1 r2) s
| MAltR r1 r2 s : Matches r2 s -> Matches (Alt r1 r2) s
| MCat r1 r2 s1 s2 :
    Matches r1 s1 -> Matches r2 s2 -> Matches (Cat r1 r2) (s1 +:+ s2)
| MStarNil r : Matches (Star r) EmptyString
| MStarCons r s1 s2 :
    Matches r s1 -> Matches (Star r) s2 -> Matches (Star r) (s1 +:+ s2).

End Re.


(** ** Python values, exceptions and the process *)

(** What [json.load] returns.  The scripts only ever test a float for
    truth, so a float is kept as that test. *)
Inductive json : Type :=
| JNull
| JBool (b : bool)
| JInt (n : Z)
| JFloat (nonzero : bool)
| JString (s : string)
| JArray (l : list json)
| JObject (m : gmap string json).

Definition type_name (v : json) : string :=
  match v with
  | JNull => "NoneType"
  | JBool _ => "bool"
  | JInt _ => "int"
  | JFloat _ => "float"
  | JString _ => "str"
  | JArray _ => "list"
  | JObject _ => "dict"
  end.

(** [bool(v)], as [not v] uses it. *)
Definition truthy (v : json) : bool :=
  match v with
  | JNull => false
  | JBool b => b
  | JInt n => negb (n =? 0)
  | JFloat nonzero => nonzero
  | JString s => Text.nonempty s
  | JArray l => match l with [] => false | _ => true end
  | JObject m => negb (bool_decide (m = ∅))
  end.

Inductive exn_class : Type :=
| JSONDecodeError
| AttributeError
| TypeError
| OverflowError
| ReError
| FileNotFoundError
| OSError
| UnicodeEncodeError
| TimeoutExpired
| CalledProcessError.

(** [SystemExit] derives from [BaseException] only: [except Exception]
    lets it through. *)
Inductive exn : Type :=
| SystemExit (code : Z)
| Exception (cls : exn_class) (msg : string).

(** Standard input as [json.load] sees it. *)
Inductive stdin : Type :=
| Unparsable (msg : string)
| Document (data : json).

(** What happens when a command line is spawned. *)
Inductive launch : Type :=
| NoSuchExecutable (msg : string)
| LaunchFails (msg : string)
| Runs (milliseconds : option N) (returncode : Z).

(** What happens when a text is written to standard output: it is
    taken, or the encoding of the stream has no code for one of its
    characters ([UnicodeEncodeError]), or the write itself fails (an
    [OSError], for a stream that is not buffered and whose reader has
    gone). *)
Inductive write_outcome : Type :=
| Written
| Unencodable (msg : string)
| WriteFails (msg : string).

(** The part of the machine a script can observe.  [stdout_flush_error]
    is the error of the flush of standard output when the interpreter
    exits, if that flush fails (the reader of the pipe has gone, the disk
    is full); it is only met when something has been written. *)
Record world : Type := MkWorld {
  path_exists : string -> bool;
  fd_open : Z -> bool;
  getcwd : option string;
  spawn : list string -> option string -> launch;
  stdout_write : string -> write_outcome;
  stdout_flush_error : option string;
}.

(** A machine whose standard output takes every text and delivers it. *)
Definition World (path_exists : string -> bool) (fd_open : Z -> bool)
    (getcwd : option string)
    (spawn : list string -> option string -> launch) : world :=
  MkWorld path_exists fd_open getcwd spawn (fun _ => Written) None.

(** What a script has written and spawned so far; [pending] is the error
    that waits for the flush of standard output at exit. *)
Record streams : Type := Streams {
  out : list string;
  err : list string;
  calls : list (list string);
  pending : option string;
}.

Definition silent : streams := Streams [] [] [] None.

Inductive outcome (A : Type) : Type :=
| Ret (a : A)
| Raise (e : exn).
Arguments Ret {A} a.
Arguments Raise {A} e.

Definition Py (A : Type) : Type := streams -> outcome A * streams.

#[global] Instance Py_ret : MRet Py := fun A a σ => (Ret a, σ).

#[global] Instance Py_bind : MBind Py := fun A B f m σ =>
  match m σ with
  | (Ret a, σ') => f a σ'
  | (Raise e, σ') => (Raise e, σ')
  end.

Definition raise {A} (cls : exn_class) (msg : string) : Py A :=
  fun σ => (Raise (Exception cls msg), σ).

Definition sys_exit {A} (code : Z) : Py A :=
  fun σ => (Raise (SystemExit code), σ).

(** [print(text)]: the text goes into the buffer of standard output,
    one entry per call, unless the stream refuses it; a text that is taken
    meets the flush at exit. *)
Definition print (w : world) (text : string) : Py unit :=
  fun σ =>
    match stdout_write w text with
    | Written =>
        (Ret tt,
         Streams (out σ ++ [text]) (err σ) (calls σ) (stdout_flush_error w))
    | Unencodable msg => (Raise (Exception UnicodeEncodeError msg), σ)
    | WriteFails msg => (Raise (Exception OSError msg), σ)
    end.

(** [print(text, file=sys.stderr)]: standard error replaces what it
    cannot encode and is written through. *)
Definition print_err (text : string) : Py unit :=
  fun σ => (Ret tt, Streams (out σ) (err σ ++ [text]) (calls σ) (pending σ)).

Definition record_call (argv : list string) : Py unit :=
  fun σ => (Ret tt, Streams (out σ) (err σ) (calls σ ++ [argv]) (pending σ)).

(** [for x in xs: body] *)
Fixpoint for_ {A} (xs : list A) (body : A -> Py unit) : Py unit :=
  match xs with
  | [] => mret tt
  | x :: xs' => body x;; for_ xs' body
  end.

(** [try: body / except ...]: [handlers] picks the clause for the class
    of the exception, if there is one. *)
Definition try_except {A} (body : Py A)
    (handlers : exn_class -> string -> option (Py A)) : Py A :=
  fun σ =>
    match body σ with
    | (Raise (Exception cls msg), σ') =>
        match handlers cls msg with
        | Some handler => handler σ'
        | None => (Raise (Exception cls msg), σ')
        end
    | r => r
    end.

(** How the process ends. *)
Record result : Type := Result {
  exit_status : Z;
  stdout : list string;
  stderr : list string;
  spawned : list (list string);
  traceback : option (exn_class * string);
}.

(** Running a script: [SystemExit n] ends the process with status [n];
    any other exception that reaches the top is printed as a traceback
    on standard error and the status is 1.  When the flush of standard
    output fails at exit, the interpreter reports that error and the
    status is 120 whatever the script asked for; [stdout] then holds what
    the script wrote, not what arrived. *)
Definition run (script : Py unit) : result :=
  match script silent with
  | (Ret tt, σ) =>
      match pending σ with
      | None => Result 0 (out σ) (err σ) (calls σ) None
      | Some msg => Result 120 (out σ) (err σ) (calls σ) (Some (OSError, msg))
      end
  | (Raise (SystemExit n), σ) =>
      match pending σ with
      | None => Result n (out σ) (err σ) (calls σ) None
      | Some msg => Result 120 (out σ) (err σ) (calls σ) (Some (OSError, msg))
      end
  | (Raise (Exception cls msg), σ) =>
      Result (match pending σ with Some _ => 120 | None => 1 end)
        (out σ) (err σ) (calls σ) (Some (cls, msg))
  end.

(** *** The library calls of the scripts *)

Definition json_load (input : stdin) : Py json :=
  match input with
  | Unparsable msg => raise JSONDecodeError msg
  | Document data => mret data
  end.

(** [d.get(key, default)] *)
Definition dict_get (d : json) (key : string) (dflt : json) : Py json :=
  match d with
  | JObject m => mret (default dflt (m !! key))
  | _ => raise AttributeError
           ("'" +:+ type_name d +:+ "' object has no attribute 'get'")
  end.

(** A call that only accepts [str] hands the text on, or raises. *)
Definition expect_str (v : json) (cls : exn_class) (msg : string) : Py string :=
  match v with
  | JString s => mret s
  | _ => raise cls msg
  end.

(** [re.search(pattern, text)] as a truth value. *)
Definition re_search (pattern text : string) : Py bool :=
  match Re.compile pattern with
  | Some r => mret (Re.search r text)
  | None => raise ReError ("unsupported pattern " +:+ pattern)
  end.

(** [os.path.exists]: a [str] is looked up in the file system, an
    integer is taken as a file descriptor, anything else is refused by
    [os.stat]. *)
Definition os_path_exists (w : world) (v : json) : Py bool :=
  match v with
  | JString s => mret (path_exists w s)
  | JBool b => mret (fd_open w (if b then 1 else 0))
  | JInt n =>
      if 2147483647 <? n then raise OverflowError "fd is greater than maximum"
      else if n <? -2147483648 then raise OverflowError "fd is less than minimum"
      else mret (fd_open w n)
  | _ => raise TypeError
           ("stat: path should be string, bytes, os.PathLike or integer, not "
            +:+ type_name v)
  end.

Definition os_getcwd (w : world) : Py string :=
  match getcwd w with
  | Some d => mret d
  | None => raise FileNotFoundError "[Errno 2] No such file or directory"
  end.

(** Has a process that runs for [milliseconds] passed [timeout] seconds? *)
Definition timed_out (milliseconds : option N) (timeout : N) : bool :=
  match milliseconds with
  | None => true
  | Some t => (1000 * timeout <? t)%N
  end.

(** [subprocess.run(argv, capture_output=True, timeout=..., cwd=...,
    check=...)]; the value is the return code. *)
Definition subprocess_run (w : world) (argv : list string)
    (cwd : option string) (timeout : N) (check : bool) : Py Z :=
  record_call argv;;
  match spawn w argv cwd with
  | NoSuchExecutable msg => raise FileNotFoundError msg
  | LaunchFails msg => raise OSError msg
  | Runs t returncode =>
      if timed_out t timeout then raise TimeoutExpired "timed out"
      else if check && negb (returncode =? 0)
      then raise CalledProcessError "returned non-zero exit status"
      else mret returncode
  end.

(** [if cond: body] *)
Definition when (cond : bool) (body : Py unit) : Py unit :=
  if cond then body else mret tt.

(** ** hooks/security/dangerous-command-blocker.py *)

Definition dangerous_patterns : list string :=
  [ "rm\s+-rf\s+/";
    "chmod\s+777";
    "sudo\s+";
    "dd\s+if=";
    "mkfs\.";
    "npm\s+publish";
    "git\s+push.*--force";
    "mv\s+.*\s+/";
    ">\s*/dev/" ].

(** The line feed that opens the last message of the blocker and of the
    guard. *)
Definition LF : string := String "010" EmptyString.

(** The subject of [re.search] has to be a [str]; the first turn of the
    loop is where a [command] of another type is refused, before anything
    is printed, so the check stands in front of the loop. *)
Definition dangerous_command_blocker (input : stdin) : Py unit :=
  data ← json_load input;
  tool_input ← dict_get data "tool_input" (JObject ∅);
  command ← dict_get tool_input "command" (JString "");
  command ← expect_str command TypeError
    ("expected string or bytes-like object, got '" +:+ type_name command +:+ "'");
  for_ dangerous_patterns (λ pattern,
    found ← re_search pattern command;
    when found (
      print_err ("BLOCKED: Dangerous command pattern detected: " +:+ pattern);;
      print_err ("Command attempted: " +:+ command);;
      print_err (LF +:+ "If this is intentional, run manually outside Claude Code.");;
      sys_exit 2));;
  sys_exit 0.

(** ** hooks/security/sensitive-file-guard.py *)

Definition sensitive_patterns : list string :=
  [ ".env"; ".env.local"; ".env.production"; ".env.development";
    ".key"; ".pem"; ".p12"; ".pfx";
    "credentials.json"; "secrets.yaml"; "secrets.json";
    ".git/config"; "id_rsa"; "id_ed25519"; "id_dsa";
    ".aws/credentials"; ".ssh/config"; "password"; "secret" ].

Definition sensitive_dirs : list string :=
  [ ".ssh/"; ".aws/"; ".gnupg/"; "secrets/"; "private/" ].

(** [file_path.lower()] in the first turn of the first loop is where a
    [file_path] that is no [str] is refused. *)
Definition sensitive_file_guard (input : stdin) : Py unit :=
  data ← json_load input;
  tool_input ← dict_get data "tool_input" (JObject ∅);
  file_path ← dict_get tool_input "file_path" (JString "");
  file_path ← expect_str file_path AttributeError
    ("'" +:+ type_name file_path +:+ "' object has no attribute 'lower'");
  for_ sensitive_patterns (λ pattern,
    when (Text.str_in pattern (Text.lower file_path)) (
      print_err ("BLOCKED: Sensitive file access detected: " +:+ file_path);;
      print_err ("Pattern matched: " +:+ pattern);;
      print_err (LF +:+ "To edit sensitive files, use your editor directly.");;
      sys_exit 2));;
  for_ sensitive_dirs (λ dir_pattern,
    when (Text.str_in dir_pattern file_path) (
      print_err ("BLOCKED: File in sensitive directory: " +:+ file_path);;
      sys_exit 2));;
  sys_exit 0.

(** ** hooks/formatting/auto-format.py *)

Definition formatters : gmap string (list string) :=
  list_to_map
    [ (".ts", ["npx"; "prettier"; "--write"]);
      (".tsx", ["npx"; "prettier"; "--write"]);
      (".js", ["npx"; "prettier"; "--write"]);
      (".jsx", ["npx"; "prettier"; "--write"]);
      (".py", ["black"; "--line-length"; "100"]) ].

(** The check mark of the two success notes lies above code point 255;
    the literal holds its UTF-8 bytes.  Whether standard output can take
    it is up to the machine. *)
Definition auto_format (w : world) (input : stdin) : Py unit :=
  data ← json_load input;
  tool_input ← dict_get data "tool_input" (JObject ∅);
  file_path ← dict_get tool_input "file_path" (JString "");
  present ← (if truthy file_path then os_path_exists w file_path else mret false);
  when (negb present) (sys_exit 0);;
  file_path ← expect_str file_path TypeError
    ("expected str, bytes or os.PathLike object, not " +:+ type_name file_path);
  let ext := (Text.splitext file_path).2 in
  match formatters !! ext with
  | Some formatter =>
      try_except
        (subprocess_run w (formatter ++ [file_path]) None 10 true;;
         print w ("✓ Formatted " +:+ file_path))
        (λ cls _,
          match cls with
          | FileNotFoundError =>
              Some (print_err "Formatter not available";; sys_exit 1)
          | TimeoutExpired =>
              Some (print_err "Formatter timeout";; sys_exit 1)
          | CalledProcessError => Some (sys_exit 1)
          | _ => None
          end)
  | None => mret tt
  end;;
  sys_exit 0.

(** ** hooks/testing/test-on-change.py *)

Definition test_extensions : list string :=
  [".ts"; ".tsx"; ".js"; ".jsx"; ".py"].

(** "Determine test command" *)
Definition test_cmd (ext file_path : string) : list string :=
  if bool_decide (ext = ".py")
  then ["pytest"; "-x"; "-q"; "--tb=short"]
  else ["npm"; "test"; "--"; "--bail"; "--findRelatedTests"; file_path].

Definition test_on_change (w : world) (input : stdin) : Py unit :=
  data ← json_load input;
  tool_input ← dict_get data "tool_input" (JObject ∅);
  file_path ← dict_get tool_input "file_path" (JString "");
  when (negb (truthy file_path)) (sys_exit 0);;
  file_path ← expect_str file_path TypeError
    ("expected str, bytes or os.PathLike object, not " +:+ type_name file_path);
  let ext := (Text.splitext file_path).2 in
  when (negb (bool_decide (ext ∈ test_extensions))) (sys_exit 0);;
  when (Text.str_in "test" (Text.lower file_path) ||
        Text.str_in "__tests__" file_path) (sys_exit 0);;
  when (Text.str_in ".claude" file_path) (sys_exit 0);;
  try_except
    (cwd ← os_getcwd w;
     returncode ← subprocess_run w (test_cmd ext file_path) (Some cwd) 60 false;
     when (negb (returncode =? 0)) (
       print_err ("⚠️ Tests failed after editing " +:+ file_path);;
       sys_exit 1);;
     print w ("✓ Tests passing for " +:+ file_path))
    (λ cls msg,
      match cls with
      | FileNotFoundError => Some (mret tt)
      | TimeoutExpired => Some (print_err ("Test timeout for " +:+ file_path))
      | _ => Some (print_err ("Could not run tests: " +:+ msg))
      end);;
  sys_exit 0.

(** ** Vocabulary of the statements *)

(** A record as section 6 of the specification describes it: a mapping
    whose [tool_input], when present, is a mapping in which [command] and
    [file_path], when present, are text. *)
Definition text_or_missing (v : option json) : bool :=
  match v with
  | None | Some (JString _) => true
  | Some _ => false
  end.

Definition well_formed (data : json) : bool :=
  match data with
  | JObject m =>
      match m !! "tool_input" with
      | None => true
      | Some (JObject t) =>
          text_or_missing (t !! "command") && text_or_missing (t !! "file_path")
      | Some _ => false
      end
  | _ => false
  end.

(** The text under [tool_input.key], empty when a key is missing. *)
Definition target (key : string) (data : json) : string :=
  match data with
  | JObject m =>
      match m !! "tool_input" with
      | Some (JObject t) =>
          match t !! key with Some (JString s) => s | _ => EmptyString end
      | _ => EmptyString
      end
  | _ => EmptyString
  end.

(** [q] is [p] up to the case of its letters. *)
Definition casing_variant (p q : string) : Prop := Text.lower p = Text.lower q.

(** [hay] contains [needle] in some letter casing. *)
Definition contains_any_case (needle hay : string) : Prop :=
  ∃ pre mid post, hay = pre +:+ mid +:+ post ∧ Text.lower mid = needle.

(** [text] has a piece that the pattern matches. *)
Definition contains_match (pattern text : string) : Prop :=
  ∃ r pre mid post,
    Re.compile pattern = Some r ∧ text = pre +:+ mid +:+ post ∧ Re.Matches r mid.

(** A run of white space, one or more characters long. *)
Definition blank (ws : string) : Prop :=
  ws ≠ EmptyString ∧
  ∀ pre c post, ws = pre +:+ String c post → Re.is_space c = true.

(** Does a rule of the command policy hit? *)
Definition rule_hits (text pattern : string) : bool :=
  match Re.compile pattern with
  | Some r => Re.search r text
  | None => false
  end.

(** The path passes every skip test of the testing hook. *)
Definition test_target (file_path : string) : bool :=
  Text.nonempty file_path &&
  bool_decide ((Text.splitext file_path).2 ∈ test_extensions) &&
  negb (Text.str_in "test" (Text.lower file_path) ||
        Text.str_in "__tests__" file_path) &&
  negb (Text.str_in ".claude" file_path).

(** Is the value a mapping? *)
Definition is_mapping (v : json) : bool :=
  match v with JObject _ => true | _ => false end.

(** The hook's own key is missing from the record [m]: there is no
    [tool_input], or it is a mapping without [key]. *)
Definition key_missing (key : string) (m : gmap string json) : Prop :=
  m !! "tool_input" = None ∨
  ∃ t, m !! "tool_input" = Some (JObject t) ∧ t !! key = None.

(** The allow outcome with nothing written and nothing spawned. *)
Definition allowed_silently : result := Result 0 [] [] [] None.

(** The process died of an exception nobody caught. *)
Definition crashed (cls : exn_class) (msg : string) : result :=
  Result 1 [] [] [] (Some (cls, msg)).

(** [AttributeError] of [v.get]. *)
Definition no_get (v : json) : result :=
  crashed AttributeError
    ("'" +:+ type_name v +:+ "' object has no attribute 'get'").

(** A record with one text field under [tool_input]. *)
Definition record_data (key value : string) : json :=
  JObject {[ "tool_input" := JObject {[ key := JString value ]} ]}.

Definition record (key value : string) : stdin :=
  Document (record_data key value).

(** *** Sample machines *)

(** Every path exists, every command runs for [t] and returns [rc]. *)
Definition machine (t : option N) (rc : Z) : world :=
  World (λ _, true) (λ _, false) (Some "/work") (λ _ _, Runs t rc).

(** Every path exists, no executable is installed. *)
Definition bare_machine : world :=
  World (λ _, true) (λ _, false) (Some "/work")
    (λ _ _, NoSuchExecutable "[Errno 2] No such file or directory").

(** No path exists. *)
Definition empty_disk : world :=
  World (λ _, false) (λ _, false) (Some "/work") (λ _ _, Runs (Some 1%N) 0).

(** *** What the first lines of every script read

    [data.get('tool_input', {}).get(key, '')] as a function of the input:
    the value found, or the exception that ends the script. *)
Definition read_field (key : string) (input : stdin)
    : exn_class * string + json :=
  match input with
  | Unparsable msg => inl (JSONDecodeError, msg)
  | Document (JObject m) =>
      match default (JObject ∅) (m !! "tool_input") with
      | JObject t => inr (default (JString "") (t !! key))
      | v => inl (AttributeError,
                  "'" +:+ type_name v +:+ "' object has no attribute 'get'")
      end
  | Document v =>
      inl (AttributeError,
           "'" +:+ type_name v +:+ "' object has no attribute 'get'")
  end.

(** The testing hook cannot get a path out of its input: the first lines
    fail, or [file_path] is a value that counts as true and is no text, on
    which [os.path.splitext] fails.  Both happen before the [try]. *)
Definition no_path (input : stdin) : Prop :=
  (∃ cls msg, read_field "file_path" input = inl (cls, msg)) ∨
  (∃ v, read_field "file_path" input = inr v ∧ truthy v = true ∧
        ∀ s, v ≠ JString s).

(** The test command was spawned and came back within the 60 seconds with
    a return code other than 0. *)
Definition tests_failed (w : world) (r : result) : Prop :=
  ∃ argv cwd t returncode,
    spawned r = [argv] ∧
    getcwd w = Some cwd ∧
    spawn w argv (Some cwd) = Runs t returncode ∧
    timed_out t 60 = false ∧
    returncode ≠ 0.

(** A machine like [machine t rc] whose standard output cannot be flushed
    at exit. *)
Definition machine_with_closed_pipe (t : option N) (rc : Z) : world :=
  MkWorld (λ _, true) (λ _, false) (Some "/work") (λ _ _, Runs t rc)
    (λ _, Written) (Some "[Errno 32] Broken pipe").

(** A machine like [machine t rc] whose standard output is ASCII only. *)
Definition machine_with_ascii_stdout (t : option N) (rc : Z) : world :=
  MkWorld (λ _, true) (λ _, false) (Some "/work") (λ _ _, Runs t rc)
    (λ text,
       if forallb (λ c, (N_of_ascii c <? 128)%N) (String.list_ascii_of_string text)
       then Written
       else Unencodable "'ascii' codec can't encode character")
    None.

(** No line feed in the text. *)
Definition one_line (s : string) : Prop :=
  ∀ pre c post, s = pre +:+ String c post → Re.is_dot c = true.

(** The words one of which every rule of the command policy begins with. *)
Definition rule_stems : list string :=
  ["rm"; "chmod"; "sudo"; "dd"; "mkfs."; "npm"; "git"; "mv"; ">"].

(** The outcomes a security hook can have: nothing on standard output,
    nothing spawned; status 0 in silence, status 1 with the traceback of an
    uncaught exception and no line of the hook's own, or status 2 with a
    first line on standard error that begins with BLOCKED. *)
Definition security_outcome (r : result) : Prop :=
  stdout r = [] ∧ spawned r = [] ∧
  (r = allowed_silently ∨
   (∃ cls msg, r = crashed cls msg) ∨
   (exit_status r = 2 ∧ traceback r = None ∧
    ∃ line rest, stderr r = ("BLOCKED: " +:+ line) :: rest)).

(** The outcomes a side-effect hook can have: status 0 or 1, or the 120
    of the interpreter when the flush at exit fails; at most one command
    spawned. *)
Definition side_effect_outcome (r : result) : Prop :=
  (exit_status r = 0 ∨ exit_status r = 1 ∨ exit_status r = 120) ∧
  (length (spawned r) ≤ 1)%nat.

(** The end of a hook whose confirmation is in the buffer of standard
    output: status 0, or 120 when the flush at exit fails. *)
Definition confirmed (w : world) (note : string) (argv : list string) : result :=
  match stdout_flush_error w with
  | None => Result 0 [note] [] [argv] None
  | Some msg => Result 120 [note] [] [argv] (Some (OSError, msg))
  end.

(** The formatter has returned 0 in time: the hook prints its
    confirmation; no clause of its [try] takes an exception of [print]. *)
Definition format_confirmation (w : world) (file_path : string)
    (argv : list string) : result :=
  match stdout_write w ("✓ Formatted " +:+ file_path) with
  | Written => confirmed w ("✓ Formatted " +:+ file_path) argv
  | Unencodable msg => Result 1 [] [] [argv] (Some (UnicodeEncodeError, msg))
  | WriteFails msg => Result 1 [] [] [argv] (Some (OSError, msg))
  end.

(** The tests have passed in time: the hook prints its confirmation; an
    exception of [print] is taken by [except Exception]. *)
Definition test_confirmation (w : world) (file_path : string)
    (argv : list string) : result :=
  match stdout_write w ("✓ Tests passing for " +:+ file_path) with
  | Written => confirmed w ("✓ Tests passing for " +:+ file_path) argv
  | Unencodable msg | WriteFails msg =>
      Result 0 [] ["Could not run tests: " +:+ msg] [argv] None
  end.

(** What the formatting hook does with a text target. *)
Definition format_outcome (w : world) (file_path : string) : result :=
  if negb (Text.nonempty file_path && path_exists w file_path)
  then allowed_silently
  else
    match formatters !! (Text.splitext file_path).2 with
    | None => allowed_silently
    | Some formatter =>
        let argv := formatter ++ [file_path] in
        match spawn w argv None with
        | NoSuchExecutable _ =>
            Result 1 [] ["Formatter not available"] [argv] None
        | LaunchFails msg => Result 1 [] [] [argv] (Some (OSError, msg))
        | Runs t returncode =>
            if timed_out t 10
            then Result 1 [] ["Formatter timeout"] [argv] None
            else if negb (returncode =? 0)
            then Result 1 [] [] [argv] None
            else format_confirmation w file_path argv
        end
    end.

(** What the testing hook does with a text target. *)
Definition test_outcome (w : world) (file_path : string) : result :=
  if negb (test_target file_path) then allowed_silently
  else
    match getcwd w with
    | None => allowed_silently
    | Some cwd =>
        let argv := test_cmd (Text.splitext file_path).2 file_path in
        match spawn w argv (Some cwd) with
        | NoSuchExecutable _ => Result 0 [] [] [argv] None
        | LaunchFails msg =>
            Result 0 [] ["Could not run tests: " +:+ msg] [argv] None
        | Runs t returncode =>
            if timed_out t 60
            then Result 0 [] ["Test timeout for " +:+ file_path] [argv] None
            else if negb (returncode =? 0)
            then Result 1 []
                   ["⚠️ Tests failed after editing " +:+ file_path]
                   [argv] None
            else test_confirmation w file_path argv
        end
    end.

(** The character does not occur in the text. *)
Definition without (c : ascii) (s : string) : Prop :=
  ∀ pre post, s ≠ pre +:+ String c post.

(** ** Text lemmas *)

Section TextFacts.
Import Text.

Lemma append_cons c (s t : string) : String c s +:+ t = String c (s +:+ t).
Proof. reflexivity. Qed.

Lemma append_nil_l (t : string) : EmptyString +:+ t = t.
Proof. reflexivity. Qed.

Lemma append_nil_r (s : string) : s +:+ EmptyString = s.
Proof. induction s as [|c s IH]; [done|]. by rewrite append_cons, IH. Qed.

Lemma append_assoc (s t u : string) : (s +:+ t) +:+ u = s +:+ (t +:+ u).
Proof. induction s as [|c s IH]; [done|]. by rewrite !append_cons, IH. Qed.

Lemma append_eq_nil (s t : string) :
  s +:+ t = EmptyString → s = EmptyString ∧ t = EmptyString.
Proof. destruct s; [done|]. rewrite append_cons. discriminate. Qed.

Lemma lower_app (s t : string) : lower (s +:+ t) = lower s +:+ lower t.
Proof.
  induction s as [|c s IH]; [done|].
  rewrite append_cons. cbn [lower]. by rewrite IH, append_cons.
Qed.

Lemma lower_char_idem c : lower_char (lower_char c) = lower_char c.
Proof. by destruct c as [[] [] [] [] [] [] [] []]. Qed.

Lemma lower_idem s : lower (lower s) = lower s.
Proof.
  induction s as [|c s IH]; [done|].
  cbn [lower]. by rewrite lower_char_idem, IH.
Qed.

Lemma startswith_app (n rest : string) : startswith (n +:+ rest) n = true.
Proof.
  induction n as [|c n IH]; [by destruct rest|].
  rewrite append_cons. cbn [startswith]. by rewrite Ascii.eqb_refl.
Qed.

Lemma startswith_split (s n : string) :
  startswith s n = true → ∃ rest, s = n +:+ rest.
Proof.
  revert s. induction n as [|c n IH]; intros s H.
  - by exists s.
  - destruct s as [|b s]; [done|]. cbn [startswith] in H.
    destruct (Ascii.eqb_spec c b) as [->|]; [|done].
    destruct (IH _ H) as [rest ->]. by exists rest.
Qed.

Lemma str_in_unfold (n hay : string) :
  str_in n hay =
    startswith hay n ||
    match hay with EmptyString => false | String _ hay' => str_in n hay' end.
Proof. by destruct hay. Qed.

(** [needle in hay] holds exactly when [hay] splits around [needle]. *)
Lemma str_in_spec (n hay : string) :
  str_in n hay = true ↔ ∃ pre post, hay = pre +:+ n +:+ post.
Proof.
  split.
  - induction hay as [|c hay IH]; rewrite str_in_unfold; intros H.
    + apply orb_prop in H as [H|H]; [|done].
      apply startswith_split in H as [rest ->]. by exists EmptyString, rest.
    + apply orb_prop in H as [H|H].
      * apply startswith_split in H as [rest ->]. by exists EmptyString, rest.
      * destruct (IH H) as (pre & post & ->). by exists (String c pre), post.
  - intros (pre & post & ->). induction pre as [|c pre IH].
    + rewrite append_nil_l, str_in_unfold. by rewrite startswith_app.
    + rewrite append_cons, str_in_unfold, IH. apply orb_true_r.
Qed.

(** A piece that lowers to the needle is found in the lowered text. *)
Lemma str_in_lower (n hay : string) :
  contains_any_case n hay → str_in n (lower hay) = true.
Proof.
  intros (pre & mid & post & -> & <-). apply str_in_spec.
  exists (lower pre), (lower post). by rewrite !lower_app.
Qed.

End TextFacts.

(** ** The matcher decides the language of a pattern *)

Section ReFacts.
Import Re.

Lemma nullable_complete r s : Matches r s → s = EmptyString → nullable r = true.
Proof.
  induction 1 as [| | | | r1 r2 s _ IH | r1 r2 s _ IH
                 | r1 r2 s1 s2 _ IH1 _ IH2 | | ]; intros E; try done.
  - cbn. by rewrite IH.
  - cbn. rewrite IH by done. apply orb_true_r.
  - apply append_eq_nil in E as [-> ->]. cbn. by rewrite IH1, IH2.
Qed.

Lemma nullable_sound r : nullable r = true → Matches r EmptyString.
Proof.
  induction r as [| | | | | r1 IH1 r2 IH2 | r1 IH1 r2 IH2 | r IH];
    cbn; intros H; try done.
  - constructor.
  - apply orb_prop in H as [H|H]; [apply MAltL | apply MAltR]; auto.
  - apply andb_prop in H as [H1 H2].
    change EmptyString with (EmptyString +:+ EmptyString).
    constructor; auto.
  - constructor.
Qed.

Lemma deriv_complete r s' :
  Matches r s' → ∀ a s, s' = String a s → Matches (deriv a r) s.
Proof.
  induction 1 as [| c | c Hc | c Hc | r1 r2 s0 _ IH | r1 r2 s0 _ IH
                 | r1 r2 s1 s2 H1 IH1 H2 IH2 | | r s1 s2 H1 IH1 H2 IH2];
    intros a s E; try discriminate.
  - injection E as -> <-. cbn. rewrite Ascii.eqb_refl. constructor.
  - injection E as -> <-. cbn. rewrite Hc. constructor.
  - injection E as -> <-. cbn. rewrite Hc. constructor.
  - cbn. apply MAltL; auto.
  - cbn. apply MAltR; auto.
  - cbn. destruct s1 as [|b s1].
    + rewrite append_nil_l in E.
      rewrite (nullable_complete _ _ H1 eq_refl). apply MAltR; auto.
    + rewrite append_cons in E. injection E as -> <-.
      assert (Matches (Cat (deriv a r1) r2) (s1 +:+ s2))
        by (constructor; auto).
      destruct (nullable r1); [by apply MAltL | done].
  - cbn. destruct s1 as [|b s1].
    + rewrite append_nil_l in E. by apply IH2.
    + rewrite append_cons in E. injection E as -> <-.
      constructor; auto.
Qed.

Lemma deriv_sound r : ∀ a s, Matches (deriv a r) s → Matches r (String a s).
Proof.
  induction r as [| | c | | | r1 IH1 r2 IH2 | r1 IH1 r2 IH2 | r IH];
    intros a s H; cbn in H.
  - inversion H.
  - inversion H.
  - destruct (Ascii.eqb_spec a c) as [->|]; inversion H. constructor.
  - destruct (is_dot a) eqn:E; inversion H. by constructor.
  - destruct (is_space a) eqn:E; inversion H. by constructor.
  - inversion H; subst; [apply MAltL | apply MAltR]; auto.
  - assert (∀ u, Matches (Cat (deriv a r1) r2) u →
                 Matches (Cat r1 r2) (String a u)) as HC.
    { intros u Hu. inversion Hu; subst.
      rewrite <- append_cons. constructor; auto. }
    destruct (nullable r1) eqn:N; [|by apply HC].
    inversion H; subst; [by apply HC|].
    rewrite <- (append_nil_l (String a s)).
    constructor; [by apply nullable_sound | auto].
  - inversion H; subst. rewrite <- append_cons. constructor; auto.
Qed.

Lemma match_here_unfold r s :
  match_here r s =
    nullable r ||
    match s with
    | EmptyString => false
    | String a s' => match_here (deriv a r) s'
    end.
Proof. by destruct s. Qed.

Lemma search_unfold r s :
  search r s =
    match_here r s ||
    match s with EmptyString => false | String _ s' => search r s' end.
Proof. by destruct s. Qed.

(** [match_here] finds exactly the matches that begin the text. *)
Lemma match_here_spec s : ∀ r,
  match_here r s = true ↔ ∃ s1 s2, s = s1 +:+ s2 ∧ Matches r s1.
Proof.
  induction s as [|a s IH]; intros r; rewrite match_here_unfold; split.
  - rewrite orb_false_r. intros H%nullable_sound.
    by exists EmptyString, EmptyString.
  - intros (s1 & s2 & E & H). symmetry in E.
    apply append_eq_nil in E as [-> _].
    by rewrite (nullable_complete _ _ H eq_refl).
  - intros [H|H]%orb_prop.
    + exists EmptyString, (String a s). split; [done|]. by apply nullable_sound.
    + apply IH in H as (s1 & s2 & -> & H).
      exists (String a s1), s2. split; [done|]. by apply deriv_sound.
  - intros (s1 & s2 & E & H). destruct s1 as [|b s1].
    + by rewrite (nullable_complete _ _ H eq_refl).
    + rewrite append_cons in E. injection E as -> ->.
      apply orb_true_intro. right. apply IH.
      exists s1, s2. split; [done|]. by eapply deriv_complete.
Qed.

(** [search] succeeds exactly when some piece of the text matches. *)
Lemma search_spec r s :
  search r s = true ↔ ∃ pre mid post, s = pre +:+ mid +:+ post ∧ Matches r mid.
Proof.
  split.
  - induction s as [|a s IH]; rewrite search_unfold; intros [H|H]%orb_prop;
      try done.
    + apply match_here_spec in H as (s1 & s2 & E & H).
      by exists EmptyString, s1, s2.
    + apply match_here_spec in H as (s1 & s2 & E & H).
      by exists EmptyString, s1, s2.
    + destruct (IH H) as (pre & mid & post & -> & Hm).
      by exists (String a pre), mid, post.
  - intros (pre & mid & post & -> & H). induction pre as [|a pre IH].
    + rewrite append_nil_l, search_unfold.
      apply orb_true_intro. left. apply match_here_spec. eauto.
    + rewrite append_cons, search_unfold, IH. apply orb_true_r.
Qed.

(** [\s+] takes any run of white space. *)
Lemma blank_matches ws : blank ws → Matches (Plus Space) ws.
Proof.
  intros [Hne Hall]. destruct ws as [|c ws]; [done|]. clear Hne.
  change (String c ws) with (String c EmptyString +:+ ws).
  constructor.
  - constructor. by apply (Hall EmptyString c ws).
  - assert (∀ pre c' post, ws = pre +:+ String c' post → is_space c' = true)
      as Hws.
    { intros pre c' post ->. by apply (Hall (String c pre) c' post). }
    clear Hall. induction ws as [|b ws IH]; [constructor|].
    change (String b ws) with (String b EmptyString +:+ ws).
    constructor.
    + constructor. by apply (Hws EmptyString b ws).
    + apply IH. intros pre c' post ->. by apply (Hws (String b pre) c' post).
Qed.

(** The shape of a recursive delete from the root: [rm], white space,
    [-rf], white space, [/], anywhere in the text. *)
Lemma root_delete_shape pre ws1 ws2 post :
  blank ws1 → blank ws2 →
  contains_match "rm\s+-rf\s+/"
    (pre +:+ ("rm" +:+ ws1 +:+ "-rf" +:+ ws2 +:+ "/") +:+ post).
Proof.
  intros H1%blank_matches H2%blank_matches.
  eexists _, pre, _, post. split; [by vm_compute|]. split; [done|].
  change "rm" with (String "r" EmptyString +:+ String "m" EmptyString).
  change "-rf" with (String "-" EmptyString +:+ String "r" EmptyString
                     +:+ String "f" EmptyString).
  rewrite !append_assoc.
  repeat (constructor; [by (constructor || done)|]).
  rewrite <- (append_nil_r "/"). constructor; constructor.
Qed.

(** Every rule of the command policy lies in the fragment. *)
Lemma dangerous_patterns_compile :
  Forall (λ pattern, is_Some (compile pattern)) dangerous_patterns.
Proof.
  unfold dangerous_patterns.
  repeat (apply List.Forall_cons; [eexists; by vm_compute|]).
  apply List.Forall_nil.
Qed.

Lemma rule_hits_spec pattern text :
  rule_hits text pattern = true ↔ contains_match pattern text.
Proof.
  unfold rule_hits, contains_match. split.
  - destruct (compile pattern) as [r|]; [|done].
    intros (pre & mid & post & ? & ?)%search_spec. by exists r, pre, mid, post.
  - intros (r & pre & mid & post & -> & E & H). apply search_spec. eauto.
Qed.

End ReFacts.

(** ** Stepping through a script *)

(** Unfold the monad and the library calls one layer. *)
Ltac py_step :=
  unfold mbind, Py_bind, mret, Py_ret, try_except, subprocess_run, os_getcwd,
    record_call, print, print_err, sys_exit, raise, when, expect_str;
  cbn [negb andb out err calls pending].

Section Stepping.

Lemma bind_unfold {A B} (m : Py A) (f : A → Py B) σ :
  (m ≫= f) σ =
    match m σ with
    | (Ret a, σ') => f a σ'
    | (Raise e, σ') => (Raise e, σ')
    end.
Proof. reflexivity. Qed.

Lemma for_cons {A} (x : A) xs (body : A → Py unit) σ :
  for_ (x :: xs) body σ = (body x;; for_ xs body) σ.
Proof. reflexivity. Qed.

(** A loop whose body is "if the test holds, complain and leave" stops
    at the first element that passes the test. *)
Lemma for_scan {A} (test : A → bool) (hit body : A → Py unit) xs :
  Forall (λ x, ∀ σ, body x σ = when (test x) (hit x) σ) xs →
  (∀ x σ, ∃ e σ', hit x σ = (Raise e, σ')) →
  ∀ σ, for_ xs body σ =
         match List.find test xs with
         | Some x => hit x σ
         | None => (Ret tt, σ)
         end.
Proof.
  intros Hbody Hhit. induction Hbody as [|x xs Hx _ IH]; intros σ; [done|].
  rewrite for_cons, bind_unfold, Hx. cbn [List.find]. unfold when.
  destruct (test x).
  - by destruct (Hhit x σ) as (e & σ' & ->).
  - apply IH.
Qed.

(** Reading [tool_input.key] from a well-formed record cannot fail. *)
Lemma decode_ok (key : string) data (rest : json → Py unit) σ :
  well_formed data = true →
  key = "command" ∨ key = "file_path" →
  (d ← json_load (Document data);
   tool_input ← dict_get d "tool_input" (JObject ∅);
   v ← dict_get tool_input key (JString "");
   rest v) σ
  = rest (JString (target key data)) σ.
Proof.
  intros WF Hkey. destruct data as [| | | | | |m]; try done.
  cbn in WF. unfold target.
  rewrite bind_unfold. cbn [json_load mret Py_ret].
  rewrite bind_unfold. cbn [dict_get mret Py_ret].
  destruct (m !! "tool_input") as [[| | | | | |t]|]; try done; simpl.
  apply andb_prop in WF as [W1 W2].
  destruct Hkey as [-> | ->].
  - by destruct (t !! "command") as [[]|].
  - by destruct (t !! "file_path") as [[]|].
Qed.

(** The same when only the hook's own key is missing. *)
Lemma decode_missing (key : string) m (rest : json → Py unit) σ :
  key_missing key m →
  (d ← json_load (Document (JObject m));
   tool_input ← dict_get d "tool_input" (JObject ∅);
   v ← dict_get tool_input key (JString "");
   rest v) σ
  = rest (JString "") σ.
Proof.
  intros [E | (t & E & Et)]; unfold json_load, dict_get; py_step;
    rewrite E; simpl.
  - by rewrite lookup_empty.
  - by rewrite Et.
Qed.

(** A document that is no mapping stops every script at [data.get]. *)
Lemma decode_no_mapping (key : string) v (rest : json → Py unit) :
  is_mapping v = false →
  run (d ← json_load (Document v);
       tool_input ← dict_get d "tool_input" (JObject ∅);
       v ← dict_get tool_input key (JString "");
       rest v)
  = no_get v.
Proof. by destruct v. Qed.

(** So does a [tool_input] that is no mapping, one call later. *)
Lemma decode_no_submapping (key : string) m v (rest : json → Py unit) :
  m !! "tool_input" = Some v →
  is_mapping v = false →
  run (d ← json_load (Document (JObject m));
       tool_input ← dict_get d "tool_input" (JObject ∅);
       v ← dict_get tool_input key (JString "");
       rest v)
  = no_get v.
Proof.
  intros E Hv. unfold run, json_load, dict_get. py_step. rewrite E.
  by destruct v.
Qed.

(** The first three lines of a script, on any input. *)
Lemma decode_any (key : string) input (rest : json → Py unit) σ :
  (d ← json_load input;
   tool_input ← dict_get d "tool_input" (JObject ∅);
   v ← dict_get tool_input key (JString "");
   rest v) σ
  = match read_field key input with
    | inl (cls, msg) => (Raise (Exception cls msg), σ)
    | inr v => rest v σ
    end.
Proof.
  destruct input as [msg|[| | | | | |m]]; try done.
  unfold json_load, dict_get, read_field. py_step.
  by destruct (default (JObject ∅) (m !! "tool_input")).
Qed.

(** [find] returns the first element that passes, whatever follows. *)
Lemma find_first {A} (test : A → bool) before x after :
  Forall (λ y, test y = false) before →
  test x = true →
  List.find test (before ++ x :: after) = Some x.
Proof.
  intros Hb Hx. induction Hb as [|y ys Hy _ IH]; cbn [app List.find].
  - by rewrite Hx.
  - by rewrite Hy.
Qed.

Lemma find_is_Some {A} (test : A → bool) xs :
  is_Some (List.find test xs) ↔ ∃ x, x ∈ xs ∧ test x = true.
Proof.
  split.
  - intros [x Hx]. apply List.find_some in Hx as [Hin Ht].
    exists x. split; [by apply list_elem_of_In | done].
  - intros (x & Hin & Ht).
    destruct (List.find test xs) eqn:E; [by eexists|].
    apply list_elem_of_In in Hin.
    pose proof (List.find_none _ _ E _ Hin). congruence.
Qed.

End Stepping.

(** ** The two security hooks on a well-formed record *)

Section SecurityHooks.

(** The command blocker stops at the first rule that hits, in the order
    of the list. *)
Lemma blocker_run data :
  well_formed data = true →
  run (dangerous_command_blocker (Document data)) =
    match List.find (rule_hits (target "command" data)) dangerous_patterns with
    | Some pattern =>
        Result 2 []
          [ "BLOCKED: Dangerous command pattern detected: " +:+ pattern;
            "Command attempted: " +:+ target "command" data;
            LF +:+ "If this is intentional, run manually outside Claude Code." ]
          [] None
    | None => Result 0 [] [] [] None
    end.
Proof.
  intros WF. unfold run, dangerous_command_blocker.
  rewrite decode_ok by auto.
  set (command := target "command" data).
  rewrite bind_unfold. cbn [expect_str mret Py_ret].
  rewrite bind_unfold.
  rewrite (for_scan (rule_hits command)
    (λ pattern,
      print_err ("BLOCKED: Dangerous command pattern detected: " +:+ pattern);;
      print_err ("Command attempted: " +:+ command);;
      print_err (LF +:+ "If this is intentional, run manually outside Claude Code.");;
      sys_exit 2)).
  - by destruct (List.find _ _).
  - eapply Forall_impl; [apply dangerous_patterns_compile|].
    intros pattern [r Hr] σ. cbn beta. rewrite bind_unfold.
    unfold re_search, rule_hits. by rewrite Hr.
  - intros x σ. by eexists _, _.
Qed.

(** The guard tries the file-name rules on the lowered path, then the
    directory rules on the path as given. *)
Lemma guard_run data :
  well_formed data = true →
  run (sensitive_file_guard (Document data)) =
    let file_path := target "file_path" data in
    match List.find (λ pattern, Text.str_in pattern (Text.lower file_path))
            sensitive_patterns with
    | Some pattern =>
        Result 2 []
          [ "BLOCKED: Sensitive file access detected: " +:+ file_path;
            "Pattern matched: " +:+ pattern;
            LF +:+ "To edit sensitive files, use your editor directly." ]
          [] None
    | None =>
        match List.find (λ dir_pattern, Text.str_in dir_pattern file_path)
                sensitive_dirs with
        | Some _ =>
            Result 2 []
              [ "BLOCKED: File in sensitive directory: " +:+ file_path ]
              [] None
        | None => Result 0 [] [] [] None
        end
    end.
Proof.
  intros WF. unfold run, sensitive_file_guard.
  rewrite decode_ok by auto.
  cbn zeta. set (file_path := target "file_path" data).
  rewrite bind_unfold. cbn [expect_str mret Py_ret].
  rewrite bind_unfold.
  rewrite (for_scan (λ pattern, Text.str_in pattern (Text.lower file_path))
    (λ pattern,
      print_err ("BLOCKED: Sensitive file access detected: " +:+ file_path);;
      print_err ("Pattern matched: " +:+ pattern);;
      print_err (LF +:+ "To edit sensitive files, use your editor directly.");;
      sys_exit 2)).
  - destruct (List.find _ sensitive_patterns); [done|].
    rewrite bind_unfold.
    rewrite (for_scan (λ dir_pattern, Text.str_in dir_pattern file_path)
      (λ _,
        print_err ("BLOCKED: File in sensitive directory: " +:+ file_path);;
        sys_exit 2)).
    + by destruct (List.find _ sensitive_dirs).
    + by apply Forall_forall.
    + intros x σ. by eexists _, _.
  - by apply Forall_forall.
  - intros x σ. by eexists _, _.
Qed.

Lemma find_exists {A} (test : A → bool) xs x :
  x ∈ xs → test x = true → ∃ y, List.find test xs = Some y ∧ test y = true.
Proof.
  intros Hin Hx. destruct (List.find test xs) as [y|] eqn:E.
  - exists y. split; [done|]. by apply List.find_some in E as [_ ?].
  - apply list_elem_of_In in Hin.
    pose proof (List.find_none _ _ E _ Hin). congruence.
Qed.

End SecurityHooks.

(** ** The two side-effect hooks on a well-formed record *)

Section SideEffectHooks.

Lemma format_run w data :
  well_formed data = true →
  run (auto_format w (Document data)) =
    let file_path := target "file_path" data in
    if negb (Text.nonempty file_path && path_exists w file_path)
    then Result 0 [] [] [] None
    else
      match formatters !! (Text.splitext file_path).2 with
      | None => Result 0 [] [] [] None
      | Some formatter =>
          let argv := formatter ++ [file_path] in
          match spawn w argv None with
          | NoSuchExecutable _ =>
              Result 1 [] ["Formatter not available"] [argv] None
          | LaunchFails msg => Result 1 [] [] [argv] (Some (OSError, msg))
          | Runs t returncode =>
              if timed_out t 10
              then Result 1 [] ["Formatter timeout"] [argv] None
              else if negb (returncode =? 0)
              then Result 1 [] [] [argv] None
              else format_confirmation w file_path argv
          end
      end.
Proof.
  intros WF. unfold run, auto_format.
  rewrite decode_ok by auto.
  cbn zeta. set (file_path := target "file_path" data).
  py_step. cbn [truthy os_path_exists].
  destruct (Text.nonempty file_path); [|done].
  py_step. destruct (path_exists w file_path); [|done].
  py_step. destruct (formatters !! _) as [formatter|]; py_step; [|done].
  destruct (spawn w _ None) as [msg|msg|t returncode]; try done.
  destruct (timed_out t 10); [done|].
  py_step. destruct (returncode =? 0); [|done].
  cbn [negb andb]. unfold format_confirmation, confirmed.
  destruct (stdout_write w _); [|done..].
  cbn [pending out err calls]. by destruct (stdout_flush_error w).
Qed.

Lemma test_run w data :
  well_formed data = true →
  run (test_on_change w (Document data)) =
    let file_path := target "file_path" data in
    if negb (test_target file_path) then Result 0 [] [] [] None
    else
      match getcwd w with
      | None => Result 0 [] [] [] None
      | Some cwd =>
          let argv := test_cmd (Text.splitext file_path).2 file_path in
          match spawn w argv (Some cwd) with
          | NoSuchExecutable _ => Result 0 [] [] [argv] None
          | LaunchFails msg =>
              Result 0 [] ["Could not run tests: " +:+ msg] [argv] None
          | Runs t returncode =>
              if timed_out t 60
              then Result 0 [] ["Test timeout for " +:+ file_path] [argv] None
              else if negb (returncode =? 0)
              then Result 1 []
                     ["⚠️ Tests failed after editing " +:+ file_path]
                     [argv] None
              else test_confirmation w file_path argv
          end
      end.
Proof.
  intros WF. unfold run, test_on_change, test_target.
  rewrite decode_ok by auto.
  cbn zeta. set (file_path := target "file_path" data).
  py_step. cbn [truthy].
  destruct (Text.nonempty file_path); [|done].
  py_step. destruct (bool_decide _); [|done].
  py_step. destruct (_ || _); [done|].
  py_step. destruct (Text.str_in ".claude" file_path); [done|].
  py_step. destruct (getcwd w) as [cwd|]; [|done].
  py_step. destruct (spawn w _ _) as [msg|msg|t returncode]; try done.
  destruct (timed_out t 60); [done|].
  py_step. destruct (returncode =? 0); [|done].
  cbn [negb andb]. unfold test_confirmation, confirmed.
  destruct (stdout_write w _); [|done..].
  cbn [pending out err calls]. by destruct (stdout_flush_error w).
Qed.

End SideEffectHooks.

(** ** The properties of the specification *)

Section Claims.

(** C1.  A command text with a piece that the root-recursive-delete rule
    [rm\s+-rf\s+/] matches is blocked: the command blocker ends with
    status 2, and standard error names that rule, the command and the
    advice, in this order. *)
Theorem C1_root_delete_is_blocked data :
  well_formed data = true →
  contains_match "rm\s+-rf\s+/" (target "command" data) →
  run (dangerous_command_blocker (Document data)) =
    Result 2 []
      [ "BLOCKED: Dangerous command pattern detected: rm\s+-rf\s+/";
        "Command attempted: " +:+ target "command" data;
        LF +:+ "If this is intentional, run manually outside Claude Code." ]
      [] None.
Proof.
  intros WF H%rule_hits_spec. rewrite blocker_run by done.
  unfold dangerous_patterns. cbn [List.find]. by rewrite H.
Qed.

Lemma C1_witness :
  let data := record_data "command" "cd /tmp && rm  -rf /" in
  well_formed data = true ∧
  contains_match "rm\s+-rf\s+/" (target "command" data) ∧
  exit_status (run (dangerous_command_blocker (Document data))) = 2.
Proof.
  assert (well_formed (record_data "command" "cd /tmp && rm  -rf /") = true)
    as WF by (vm_compute; reflexivity).
  assert (contains_match "rm\s+-rf\s+/"
            (target "command" (record_data "command" "cd /tmp && rm  -rf /")))
    as Hm by (apply rule_hits_spec; vm_compute; reflexivity).
  split; [exact WF|]. split; [exact Hm|].
  rewrite (C1_root_delete_is_blocked _ WF Hm). reflexivity.
Defined.

(** C2.  A path with [.env], [id_rsa] or [secret] in it, in any letter
    casing, is blocked by the sensitive-file guard with status 2, and
    the rule that standard error names is a file-name rule found in the
    lowered path; for [/home/user/project/readme.md] no rule of either
    tier matches and the guard ends with status 0. *)
Theorem C2_sensitive_names_blocked :
  (∀ data needle,
     well_formed data = true →
     needle ∈ [".env"; "id_rsa"; "secret"] →
     contains_any_case needle (target "file_path" data) →
     ∃ pattern,
       pattern ∈ sensitive_patterns ∧
       Text.str_in pattern (Text.lower (target "file_path" data)) = true ∧
       run (sensitive_file_guard (Document data)) =
         Result 2 []
           [ "BLOCKED: Sensitive file access detected: "
               +:+ target "file_path" data;
             "Pattern matched: " +:+ pattern;
             LF +:+ "To edit sensitive files, use your editor directly." ]
           [] None) ∧
  Forall (λ pattern,
            Text.str_in pattern (Text.lower "/home/user/project/readme.md")
            = false) sensitive_patterns ∧
  Forall (λ dir_pattern,
            Text.str_in dir_pattern "/home/user/project/readme.md" = false)
    sensitive_dirs ∧
  run (sensitive_file_guard
         (record "file_path" "/home/user/project/readme.md"))
  = allowed_silently.
Proof.
  split; [|split; [|split]].
  - intros data needle WF Hin Hc%str_in_lower.
    assert (needle ∈ sensitive_patterns) as Hrule.
    { unfold sensitive_patterns.
      repeat (apply elem_of_cons in Hin as [->|Hin]; [set_solver|]).
      by apply elem_of_nil in Hin. }
    destruct (find_exists
                (λ p, Text.str_in p (Text.lower (target "file_path" data)))
                _ _ Hrule Hc) as (pattern & Hfind & Hp).
    exists pattern. split; [|split; [done|]].
    + apply list_elem_of_In. by apply List.find_some in Hfind as [? _].
    + rewrite guard_run by done. cbn zeta. by rewrite Hfind.
  - unfold sensitive_patterns.
    repeat (apply List.Forall_cons; [by vm_compute|]). apply List.Forall_nil.
  - unfold sensitive_dirs.
    repeat (apply List.Forall_cons; [by vm_compute|]). apply List.Forall_nil.
  - by vm_compute.
Qed.

Lemma C2_witness :
  let data := record_data "file_path" "/srv/app/My_SeCrEt.txt" in
  well_formed data = true ∧
  contains_any_case "secret" (target "file_path" data) ∧
  ∃ pattern,
    run (sensitive_file_guard (Document data)) =
      Result 2 []
        [ "BLOCKED: Sensitive file access detected: "
            +:+ target "file_path" data;
          "Pattern matched: " +:+ pattern;
          LF +:+ "To edit sensitive files, use your editor directly." ]
        [] None.
Proof.
  assert (well_formed (record_data "file_path" "/srv/app/My_SeCrEt.txt") = true)
    as WF by (vm_compute; reflexivity).
  assert (contains_any_case "secret"
            (target "file_path"
               (record_data "file_path" "/srv/app/My_SeCrEt.txt"))) as Hc.
  { exists "/srv/app/My_", "SeCrEt", ".txt". split; vm_compute; reflexivity. }
  split; [exact WF|]. split; [exact Hc|].
  destruct (proj1 C2_sensitive_names_blocked _ "secret" WF) as (p & _ & _ & Hrun);
    [set_solver | exact Hc |].
  exists p. exact Hrun.
Defined.

(** C3, as amended.  Decoding degrades to the empty text only inside a
    mapping: when the record is a mapping and the hook's own key is
    missing (no [tool_input], or a [tool_input] mapping without the
    key), every hook ends with status 0 and writes nothing.  Input that
    is not such a mapping is not degraded: text that does not parse, a
    document that is no mapping, and a [tool_input] that is no mapping
    each end every hook with status 1 through the uncaught exception of
    the decode step. *)
Theorem C3_decode_degrades_inside_mappings w :
  (∀ m, key_missing "command" m →
        run (dangerous_command_blocker (Document (JObject m)))
        = allowed_silently) ∧
  (∀ m, key_missing "file_path" m →
        run (sensitive_file_guard (Document (JObject m))) = allowed_silently ∧
        run (auto_format w (Document (JObject m))) = allowed_silently ∧
        run (test_on_change w (Document (JObject m))) = allowed_silently) ∧
  (∀ msg,
        run (dangerous_command_blocker (Unparsable msg))
        = crashed JSONDecodeError msg ∧
        run (sensitive_file_guard (Unparsable msg))
        = crashed JSONDecodeError msg ∧
        run (auto_format w (Unparsable msg)) = crashed JSONDecodeError msg ∧
        run (test_on_change w (Unparsable msg)) = crashed JSONDecodeError msg) ∧
  (∀ v, is_mapping v = false →
        run (dangerous_command_blocker (Document v)) = no_get v ∧
        run (sensitive_file_guard (Document v)) = no_get v ∧
        run (auto_format w (Document v)) = no_get v ∧
        run (test_on_change w (Document v)) = no_get v) ∧
  (∀ m v, m !! "tool_input" = Some v → is_mapping v = false →
        run (dangerous_command_blocker (Document (JObject m))) = no_get v ∧
        run (sensitive_file_guard (Document (JObject m))) = no_get v ∧
        run (auto_format w (Document (JObject m))) = no_get v ∧
        run (test_on_change w (Document (JObject m))) = no_get v).
Proof.
  split; [|split; [|split; [|split]]].
  - intros m Hk. unfold run, dangerous_command_blocker.
    by rewrite decode_missing.
  - intros m Hk. split; [|split].
    + unfold run, sensitive_file_guard. by rewrite decode_missing.
    + unfold run, auto_format. by rewrite decode_missing.
    + unfold run, test_on_change. by rewrite decode_missing.
  - done.
  - intros v Hv. by destruct v.
  - intros m v E Hv. split; [|split; [|split]];
      by eapply decode_no_submapping.
Qed.

Lemma C3_witness :
  key_missing "command" ∅ ∧
  run (dangerous_command_blocker (Document (JObject ∅))) = allowed_silently ∧
  is_mapping (JString "rm -rf /") = false ∧
  run (dangerous_command_blocker (Document (JString "rm -rf /")))
  = no_get (JString "rm -rf /").
Proof.
  assert (key_missing "command" ∅) as Hk by (left; apply lookup_empty).
  split; [exact Hk|]. split.
  - exact (proj1 (C3_decode_degrades_inside_mappings empty_disk) ∅ Hk).
  - split; [reflexivity|].
    exact (proj1 (proj1 (proj2 (proj2 (proj2
             (C3_decode_degrades_inside_mappings empty_disk))))
             (JString "rm -rf /") eq_refl)).
Defined.

(** C3 as the specification has it fails: a record that is not a mapping,
    here the JSON array [[]], and text that is no JSON at all end every
    hook with status 1, not 0. *)
Lemma C3_counterexample :
  exit_status (run (dangerous_command_blocker (Document (JArray [])))) = 1 ∧
  exit_status (run (sensitive_file_guard (Document (JArray [])))) = 1 ∧
  exit_status (run (auto_format empty_disk (Document (JArray [])))) = 1 ∧
  exit_status (run (test_on_change empty_disk (Document (JArray [])))) = 1 ∧
  exit_status (run (dangerous_command_blocker (Unparsable "Expecting value")))
  = 1 ∧
  exit_status (run (dangerous_command_blocker (Document (JArray [])))) ≠ 0.
Proof. repeat split; (reflexivity || discriminate). Qed.

(** C7.  A well-formed record with neither [command] nor [file_path]
    populated: each of the four hooks ends with status 0 and writes
    nothing to either stream (and spawns nothing). *)
Theorem C7_no_target_allows w data :
  well_formed data = true →
  target "command" data = "" →
  target "file_path" data = "" →
  run (dangerous_command_blocker (Document data)) = allowed_silently ∧
  run (sensitive_file_guard (Document data)) = allowed_silently ∧
  run (auto_format w (Document data)) = allowed_silently ∧
  run (test_on_change w (Document data)) = allowed_silently.
Proof.
  intros WF Ec Ef. repeat split.
  - rewrite blocker_run by done. by rewrite Ec.
  - rewrite guard_run by done. by rewrite Ef.
  - rewrite format_run by done. by rewrite Ef.
  - rewrite test_run by done. by rewrite Ef.
Qed.

Lemma C7_witness :
  let data := JObject {[ "tool_input" := JObject {[ "command" := JString "" ]} ]} in
  well_formed data = true ∧
  target "command" data = "" ∧
  target "file_path" data = "" ∧
  run (test_on_change bare_machine (Document data)) = allowed_silently.
Proof.
  assert (well_formed
            (JObject {[ "tool_input" := JObject {[ "command" := JString "" ]} ]})
          = true) as WF by (vm_compute; reflexivity).
  split; [exact WF|]. split; [vm_compute; reflexivity|].
  split; [vm_compute; reflexivity|].
  apply (C7_no_target_allows bare_machine _ WF); vm_compute; reflexivity.
Defined.

(** C8.  On a well-formed record the command blocker and the
    sensitive-file guard end with status 0 or 2, never with 1. *)
Theorem C8_security_hooks_exit_0_or_2 data :
  well_formed data = true →
  (exit_status (run (dangerous_command_blocker (Document data))) = 0 ∨
   exit_status (run (dangerous_command_blocker (Document data))) = 2) ∧
  (exit_status (run (sensitive_file_guard (Document data))) = 0 ∨
   exit_status (run (sensitive_file_guard (Document data))) = 2) ∧
  exit_status (run (dangerous_command_blocker (Document data))) ≠ 1 ∧
  exit_status (run (sensitive_file_guard (Document data))) ≠ 1.
Proof.
  intros WF. rewrite blocker_run, guard_run by done. cbn zeta.
  destruct (List.find _ dangerous_patterns);
    destruct (List.find _ sensitive_patterns);
    try destruct (List.find _ sensitive_dirs); cbn; auto.
Qed.

Lemma C8_witness :
  let data := record_data "command" "sudo reboot" in
  well_formed data = true ∧
  exit_status (run (dangerous_command_blocker (Document data))) ≠ 1 ∧
  exit_status (run (sensitive_file_guard (Document data))) ≠ 1.
Proof.
  assert (well_formed (record_data "command" "sudo reboot") = true)
    as WF by (vm_compute; reflexivity).
  split; [exact WF|].
  exact (proj2 (proj2 (C8_security_hooks_exit_0_or_2 _ WF))).
Defined.

(** The extension of a path that has a formatter is not empty, so the
    path is not empty either. *)
Lemma formatter_path_nonempty file_path formatter :
  formatters !! (Text.splitext file_path).2 = Some formatter →
  Text.nonempty file_path = true.
Proof. by destruct file_path. Qed.

(** C4, as amended.  When the command a hook has spawned runs past the
    configured timeout (10 seconds for the formatter, 60 for the tests),
    the hook prints a line that names the timeout on standard error;
    the formatting hook then ends with status 1, the testing hook with
    status 0. *)
Theorem C4_timeout_is_reported :
  (∀ w data formatter t returncode,
     well_formed data = true →
     let file_path := target "file_path" data in
     path_exists w file_path = true →
     formatters !! (Text.splitext file_path).2 = Some formatter →
     spawn w (formatter ++ [file_path]) None = Runs t returncode →
     timed_out t 10 = true →
     run (auto_format w (Document data)) =
       Result 1 [] ["Formatter timeout"] [formatter ++ [file_path]] None) ∧
  (∀ w data cwd t returncode,
     well_formed data = true →
     let file_path := target "file_path" data in
     let argv := test_cmd (Text.splitext file_path).2 file_path in
     test_target file_path = true →
     getcwd w = Some cwd →
     spawn w argv (Some cwd) = Runs t returncode →
     timed_out t 60 = true →
     run (test_on_change w (Document data)) =
       Result 0 [] ["Test timeout for " +:+ file_path] [argv] None).
Proof.
  split.
  - intros w data formatter t returncode WF file_path Hex Hfmt Hrun Ht.
    rewrite format_run by done. cbn zeta. fold file_path.
    rewrite (formatter_path_nonempty _ _ Hfmt), Hex, Hfmt, Hrun. cbn.
    by rewrite Ht.
  - intros w data cwd t returncode WF file_path argv Hgo Hcwd Hrun Ht.
    rewrite test_run by done. cbn zeta. fold file_path. fold argv.
    rewrite Hgo, Hcwd, Hrun. cbn. by rewrite Ht.
Qed.

Lemma C4_witness :
  let w := machine None 0 in
  let data := record_data "file_path" "/src/app.py" in
  well_formed data = true ∧
  test_target (target "file_path" data) = true ∧
  timed_out None 10 = true ∧
  run (auto_format w (Document data)) =
    Result 1 [] ["Formatter timeout"]
      [["black"; "--line-length"; "100"] ++ [target "file_path" data]] None ∧
  run (test_on_change w (Document data)) =
    Result 0 [] ["Test timeout for " +:+ target "file_path" data]
      [test_cmd (Text.splitext (target "file_path" data)).2
         (target "file_path" data)] None.
Proof.
  assert (well_formed (record_data "file_path" "/src/app.py") = true)
    as WF by (vm_compute; reflexivity).
  split; [exact WF|]. split; [vm_compute; reflexivity|].
  split; [reflexivity|]. split.
  - apply (proj1 C4_timeout_is_reported (machine None 0) _
             ["black"; "--line-length"; "100"] None 0 WF);
      vm_compute; reflexivity.
  - apply (proj2 C4_timeout_is_reported (machine None 0) _
             "/work" None 0 WF); vm_compute; reflexivity.
Defined.

(** C4 as the specification has it fails for the testing hook: the test
    command of [/src/app.py] never returns, the hook reports the timeout
    and ends with status 0, not 1. *)
Lemma C4_counterexample :
  let w := machine None 0 in
  let r := run (test_on_change w (record "file_path" "/src/app.py")) in
  spawned r = [["pytest"; "-x"; "-q"; "--tb=short"]] ∧
  spawn w ["pytest"; "-x"; "-q"; "--tb=short"] (getcwd w) = Runs None 0 ∧
  timed_out None 60 = true ∧
  stderr r = ["Test timeout for /src/app.py"] ∧
  exit_status r = 0 ∧
  exit_status r ≠ 1.
Proof. repeat split; (by vm_compute) || discriminate. Qed.

(** The file-name tier of the guard does not see letter case: when a
    file-name rule is found in one path, every casing variant of the
    path is blocked too. *)
Lemma guard_name_rules_ignore_case data data' pattern :
  well_formed data = true →
  well_formed data' = true →
  casing_variant (target "file_path" data) (target "file_path" data') →
  pattern ∈ sensitive_patterns →
  Text.str_in pattern (Text.lower (target "file_path" data)) = true →
  exit_status (run (sensitive_file_guard (Document data'))) = 2.
Proof.
  intros WF WF' Hv Hin Hp. rewrite guard_run by done. cbn zeta.
  rewrite <- Hv.
  destruct (find_exists
              (λ p, Text.str_in p (Text.lower (target "file_path" data)))
              _ _ Hin Hp) as (q & -> & _).
  done.
Qed.

(** C5, at the input where the code departs from it.  The directory
    tier looks at the path as given: [/home/user/.ssh/known_hosts] is
    blocked with status 2, its casing variant
    [/home/user/.SSH/known_hosts] matches no rule of either tier and
    passes with status 0. *)
Theorem C5_upper_case_directory_passes :
  casing_variant "/home/user/.ssh/known_hosts" "/home/user/.SSH/known_hosts" ∧
  run (sensitive_file_guard (record "file_path" "/home/user/.ssh/known_hosts"))
  = Result 2 []
      ["BLOCKED: File in sensitive directory: /home/user/.ssh/known_hosts"]
      [] None ∧
  List.find (λ pattern,
               Text.str_in pattern (Text.lower "/home/user/.SSH/known_hosts"))
    sensitive_patterns = None ∧
  List.find (λ dir_pattern,
               Text.str_in dir_pattern "/home/user/.SSH/known_hosts")
    sensitive_dirs = None ∧
  run (sensitive_file_guard (record "file_path" "/home/user/.SSH/known_hosts"))
  = allowed_silently.
Proof. repeat split; by vm_compute. Qed.

(** C6.  When the executable is absent, the formatting hook prints
    "Formatter not available" on standard error and ends with status 1;
    the testing hook ends with status 0 and prints nothing. *)
Theorem C6_missing_executable :
  (∀ w data formatter msg,
     well_formed data = true →
     let file_path := target "file_path" data in
     path_exists w file_path = true →
     formatters !! (Text.splitext file_path).2 = Some formatter →
     spawn w (formatter ++ [file_path]) None = NoSuchExecutable msg →
     run (auto_format w (Document data)) =
       Result 1 [] ["Formatter not available"] [formatter ++ [file_path]]
         None) ∧
  (∀ w data cwd msg,
     well_formed data = true →
     let file_path := target "file_path" data in
     let argv := test_cmd (Text.splitext file_path).2 file_path in
     test_target file_path = true →
     getcwd w = Some cwd →
     spawn w argv (Some cwd) = NoSuchExecutable msg →
     run (test_on_change w (Document data)) = Result 0 [] [] [argv] None).
Proof.
  split.
  - intros w data formatter msg WF file_path Hex Hfmt Hrun.
    rewrite format_run by done. cbn zeta. fold file_path.
    by rewrite (formatter_path_nonempty _ _ Hfmt), Hex, Hfmt, Hrun.
  - intros w data cwd msg WF file_path argv Hgo Hcwd Hrun.
    rewrite test_run by done. cbn zeta. fold file_path. fold argv.
    by rewrite Hgo, Hcwd, Hrun.
Qed.

Lemma C6_witness :
  let data := record_data "file_path" "/src/view.tsx" in
  well_formed data = true ∧
  test_target (target "file_path" data) = true ∧
  run (auto_format bare_machine (Document data)) =
    Result 1 [] ["Formatter not available"]
      [["npx"; "prettier"; "--write"] ++ [target "file_path" data]] None ∧
  run (test_on_change bare_machine (Document data)) =
    Result 0 [] []
      [test_cmd (Text.splitext (target "file_path" data)).2
         (target "file_path" data)] None.
Proof.
  assert (well_formed (record_data "file_path" "/src/view.tsx") = true)
    as WF by (vm_compute; reflexivity).
  split; [exact WF|]. split; [vm_compute; reflexivity|]. split.
  - apply (proj1 C6_missing_executable bare_machine _
             ["npx"; "prettier"; "--write"]
             "[Errno 2] No such file or directory" WF);
      vm_compute; reflexivity.
  - apply (proj2 C6_missing_executable bare_machine _ "/work"
             "[Errno 2] No such file or directory" WF);
      vm_compute; reflexivity.
Defined.

(** C10.  When the target path does not exist, the formatting hook ends
    with status 0, spawns nothing and writes nothing, whatever the
    extension of the path. *)
Theorem C10_missing_file_is_not_formatted w data :
  well_formed data = true →
  path_exists w (target "file_path" data) = false →
  run (auto_format w (Document data)) = allowed_silently.
Proof.
  intros WF Hex. rewrite format_run by done. cbn zeta.
  by rewrite Hex, andb_false_r.
Qed.

Lemma C10_witness :
  let data := record_data "file_path" "/src/app.py" in
  well_formed data = true ∧
  path_exists empty_disk (target "file_path" data) = false ∧
  formatters !! (Text.splitext (target "file_path" data)).2
  = Some ["black"; "--line-length"; "100"] ∧
  run (auto_format empty_disk (Document data)) = allowed_silently.
Proof.
  assert (well_formed (record_data "file_path" "/src/app.py") = true)
    as WF by (vm_compute; reflexivity).
  split; [exact WF|]. split; [reflexivity|]. split; [vm_compute; reflexivity|].
  apply (C10_missing_file_is_not_formatted empty_disk _ WF). reflexivity.
Defined.

End Claims.

(** ** The hooks on any input *)

Section AnyInput.

(** A hook sees nothing of its input but its own field. *)
Lemma blocker_by_field input input' :
  read_field "command" input = read_field "command" input' →
  run (dangerous_command_blocker input) = run (dangerous_command_blocker input').
Proof.
  intros E. unfold run, dangerous_command_blocker.
  by rewrite !decode_any, E.
Qed.

Lemma guard_by_field input input' :
  read_field "file_path" input = read_field "file_path" input' →
  run (sensitive_file_guard input) = run (sensitive_file_guard input').
Proof.
  intros E. unfold run, sensitive_file_guard. by rewrite !decode_any, E.
Qed.

Lemma format_by_field w input input' :
  read_field "file_path" input = read_field "file_path" input' →
  run (auto_format w input) = run (auto_format w input').
Proof. intros E. unfold run, auto_format. by rewrite !decode_any, E. Qed.

Lemma test_by_field w input input' :
  read_field "file_path" input = read_field "file_path" input' →
  run (test_on_change w input) = run (test_on_change w input').
Proof. intros E. unfold run, test_on_change. by rewrite !decode_any, E. Qed.

Lemma read_field_record key value :
  read_field key (record key value) = inr (JString value).
Proof.
  unfold read_field, record, record_data.
  rewrite lookup_singleton_eq. cbn [default from_option id].
  by rewrite lookup_singleton_eq.
Qed.

Lemma record_well_formed key value : well_formed (record_data key value) = true.
Proof.
  unfold well_formed, record_data. rewrite lookup_singleton_eq.
  unfold text_or_missing. rewrite !lookup_singleton.
  by repeat case_decide.
Qed.

Lemma record_target key value : target key (record_data key value) = value.
Proof.
  unfold target, record_data. by rewrite !lookup_singleton_eq.
Qed.

(** The command blocker on any input. *)
Lemma blocker_any input :
  run (dangerous_command_blocker input) =
    match read_field "command" input with
    | inl (cls, msg) => crashed cls msg
    | inr (JString command) =>
        match List.find (rule_hits command) dangerous_patterns with
        | Some pattern =>
            Result 2 []
              [ "BLOCKED: Dangerous command pattern detected: " +:+ pattern;
                "Command attempted: " +:+ command;
                LF +:+ "If this is intentional, run manually outside Claude Code." ]
              [] None
        | None => allowed_silently
        end
    | inr v =>
        crashed TypeError
          ("expected string or bytes-like object, got '" +:+ type_name v +:+ "'")
    end.
Proof.
  destruct (read_field "command" input) as [[cls msg]|v] eqn:E.
  - unfold run, dangerous_command_blocker. by rewrite decode_any, E.
  - destruct v as [| | | |command| |];
      try (unfold run, dangerous_command_blocker; by rewrite decode_any, E).
    rewrite (blocker_by_field input (record "command" command))
      by (by rewrite read_field_record).
    unfold record. rewrite blocker_run by apply record_well_formed.
    by rewrite record_target.
Qed.

(** The sensitive-file guard on any input. *)
Lemma guard_any input :
  run (sensitive_file_guard input) =
    match read_field "file_path" input with
    | inl (cls, msg) => crashed cls msg
    | inr (JString file_path) =>
        match List.find (λ pattern, Text.str_in pattern (Text.lower file_path))
                sensitive_patterns with
        | Some pattern =>
            Result 2 []
              [ "BLOCKED: Sensitive file access detected: " +:+ file_path;
                "Pattern matched: " +:+ pattern;
                LF +:+ "To edit sensitive files, use your editor directly." ]
              [] None
        | None =>
            match List.find (λ dir_pattern, Text.str_in dir_pattern file_path)
                    sensitive_dirs with
            | Some _ =>
                Result 2 []
                  [ "BLOCKED: File in sensitive directory: " +:+ file_path ]
                  [] None
            | None => allowed_silently
            end
        end
    | inr v =>
        crashed AttributeError
          ("'" +:+ type_name v +:+ "' object has no attribute 'lower'")
    end.
Proof.
  destruct (read_field "file_path" input) as [[cls msg]|v] eqn:E.
  - unfold run, sensitive_file_guard. by rewrite decode_any, E.
  - destruct v as [| | | |file_path| |];
      try (unfold run, sensitive_file_guard; by rewrite decode_any, E).
    rewrite (guard_by_field input (record "file_path" file_path))
      by (by rewrite read_field_record).
    unfold record. rewrite guard_run by apply record_well_formed.
    cbn zeta. by rewrite record_target.
Qed.

(** The side-effect hooks on a target that is no text: a value that
    counts as false is let through in silence, any other ends the script
    with an exception, before anything is spawned or printed. *)
Lemma format_no_text w input v :
  read_field "file_path" input = inr v →
  (∀ s, v ≠ JString s) →
  (truthy v = false → run (auto_format w input) = allowed_silently) ∧
  (run (auto_format w input) = allowed_silently ∨
   ∃ cls msg, run (auto_format w input) = crashed cls msg).
Proof.
  intros E Hv. unfold run, auto_format. rewrite decode_any, E.
  destruct v as [|b|n|nz|s| l |m]; py_step; cbn [truthy os_path_exists].
  - split; [done | by left].
  - destruct b; cbn; [|split; [done | by left]].
    py_step. destruct (fd_open w 1); cbn; (split; [done|]); [right | left]; eauto.
  - destruct (n =? 0); cbn [negb]; [split; [done | by left]|].
    py_step. split; [done|].
    destruct (2147483647 <? n); [right; eauto|].
    destruct (n <? -2147483648); [right; eauto|].
    destruct (fd_open w n); [right | left]; eauto.
  - destruct nz; py_step; (split; [done|]); [right | left]; eauto.
  - by destruct (Hv s).
  - destruct l; py_step; (split; [done|]); [left | right]; eauto.
  - destruct (bool_decide (m = ∅)); cbn [negb]; py_step; (split; [done|]);
      [left | right]; eauto.
Qed.

Lemma test_no_text w input v :
  read_field "file_path" input = inr v →
  (∀ s, v ≠ JString s) →
  run (test_on_change w input) =
    if truthy v
    then crashed TypeError
           ("expected str, bytes or os.PathLike object, not " +:+ type_name v)
    else allowed_silently.
Proof.
  intros E Hv. unfold run, test_on_change. rewrite decode_any, E.
  destruct v as [|b|n|nz|s| l |m]; py_step; cbn [truthy]; try done.
  - by destruct b.
  - by destruct (n =? 0).
  - by destruct nz.
  - by destruct (Hv s).
  - by destruct l.
  - by destruct (bool_decide (m = ∅)).
Qed.

End AnyInput.

(** ** More on the command blocker *)

Section BlockerCoverage.
Import Re.

Lemma str_in_trans a b c :
  Text.str_in a b = true → Text.str_in b c = true → Text.str_in a c = true.
Proof.
  intros (p1 & q1 & ->)%str_in_spec (p2 & q2 & ->)%str_in_spec.
  apply str_in_spec. exists (p2 +:+ p1), (q1 +:+ q2).
  by rewrite !append_assoc.
Qed.

(** [.*] takes any text without a line feed. *)
Lemma one_line_matches s : one_line s → Matches (Star Dot) s.
Proof.
  induction s as [|c s IH]; intros H; [constructor|].
  change (String c s) with (String c EmptyString +:+ s). constructor.
  - constructor. by apply (H EmptyString c s).
  - apply IH. intros pre c' post ->. by apply (H (String c pre) c' post).
Qed.

(** [\s*] takes any run of white space, the empty one too. *)
Lemma spaces_match ws :
  (∀ pre c post, ws = pre +:+ String c post → is_space c = true) →
  Matches (Star Space) ws.
Proof.
  induction ws as [|c ws IH]; intros H; [constructor|].
  change (String c ws) with (String c EmptyString +:+ ws). constructor.
  - constructor. by apply (H EmptyString c ws).
  - apply IH. intros pre c' post ->. by apply (H (String c pre) c' post).
Qed.

Lemma matches_lit_cat c r s :
  Matches (Cat (Lit c) r) s → ∃ s', s = String c s' ∧ Matches r s'.
Proof.
  intros H. inversion H as [| | | | | |r1 r2 s1 s2 H1 H2| |]; subst.
  inversion H1; subst. by exists s2.
Qed.

(** A rule that hits has found the word it begins with. *)
Lemma rule_needs_stem command :
  Forall2 (λ pattern stem,
             contains_match pattern command →
             Text.str_in stem command = true)
    dangerous_patterns rule_stems.
Proof.
  unfold dangerous_patterns, rule_stems.
  repeat (apply Forall2_cons; split;
    [intros (r & pre & mid & post & Hc & -> & Hm);
     vm_compute in Hc; injection Hc as <-;
     repeat (apply matches_lit_cat in Hm as (? & -> & Hm));
     apply str_in_spec; eexists pre, _;
     rewrite ?append_cons; reflexivity|]).
  apply Forall2_nil_2.
Qed.

Lemma blocked_iff_find command :
  (∃ pattern, pattern ∈ dangerous_patterns ∧ contains_match pattern command) ↔
  is_Some (List.find (rule_hits command) dangerous_patterns).
Proof.
  rewrite find_is_Some. by setoid_rewrite rule_hits_spec.
Qed.

Lemma blocker_blocked input command pattern :
  read_field "command" input = inr (JString command) →
  pattern ∈ dangerous_patterns →
  contains_match pattern command →
  exit_status (run (dangerous_command_blocker input)) = 2.
Proof.
  intros E Hin Hm. rewrite blocker_any, E.
  destruct (proj1 (blocked_iff_find command)) as [p ->]; [eauto | done].
Qed.

Lemma blocker_allowed input command :
  read_field "command" input = inr (JString command) →
  (∀ pattern, pattern ∈ dangerous_patterns → ¬ contains_match pattern command) →
  run (dangerous_command_blocker input) = allowed_silently.
Proof.
  intros E Hno. rewrite blocker_any, E.
  destruct (List.find _ _) as [p|] eqn:F; [|done].
  destruct (proj2 (blocked_iff_find command)) as (q & Hq & Hm).
  - rewrite F. by eexists.
  - by destruct (Hno q Hq).
Qed.

End BlockerCoverage.

(** ** Further properties of the scripts *)

Section BlockerProperties.
Import Re.

(** X1.  The command blocker ends with status 2 exactly when some rule of the
    list matches a piece of the command; when no rule does, it ends with
    status 0 and writes nothing. *)
Theorem blocker_blocks_exactly_on_match input command :
  read_field "command" input = inr (JString command) →
  (exit_status (run (dangerous_command_blocker input)) = 2 ↔
     ∃ pattern, pattern ∈ dangerous_patterns ∧ contains_match pattern command) ∧
  ((∀ pattern, pattern ∈ dangerous_patterns → ¬ contains_match pattern command) →
   run (dangerous_command_blocker input) = allowed_silently).
Proof.
  intros E. rewrite blocker_any, E, blocked_iff_find.
  destruct (List.find _ _) as [p|] eqn:F.
  - split; [by split; [eexists|] |].
    intros Hno. destruct (proj2 (blocked_iff_find command)) as (q & Hq & Hm).
    + rewrite F. by eexists.
    + by destruct (Hno q Hq).
  - split; [|done]. split; [done | by intros [? [=]]].
Qed.

Lemma blocker_blocks_exactly_on_match_witness :
  read_field "command" (record "command" "ls -la") = inr (JString "ls -la") ∧
  (∀ pattern, pattern ∈ dangerous_patterns →
              ¬ contains_match pattern "ls -la") ∧
  run (dangerous_command_blocker (record "command" "ls -la")) = allowed_silently.
Proof.
  assert (∀ pattern, pattern ∈ dangerous_patterns →
                     ¬ contains_match pattern "ls -la") as Hno.
  { intros pattern Hin Hm%rule_hits_spec. revert Hm.
    unfold dangerous_patterns in Hin.
    repeat (apply elem_of_cons in Hin as [->|Hin]; [by vm_compute|]).
    by apply elem_of_nil in Hin. }
  split; [apply read_field_record|]. split; [exact Hno|].
  exact (proj2 (blocker_blocks_exactly_on_match _ _
                  (read_field_record "command" "ls -la")) Hno).
Defined.

(** X2.  The rule the blocker names is the first one, in the order of the
    list, that matches: rules further down are never reported for a
    command that an earlier rule matches. *)
Theorem blocker_reports_first_rule input command before pattern after :
  read_field "command" input = inr (JString command) →
  dangerous_patterns = before ++ pattern :: after →
  (∀ q, q ∈ before → ¬ contains_match q command) →
  contains_match pattern command →
  run (dangerous_command_blocker input) =
    Result 2 []
      [ "BLOCKED: Dangerous command pattern detected: " +:+ pattern;
        "Command attempted: " +:+ command;
        LF +:+ "If this is intentional, run manually outside Claude Code." ]
      [] None.
Proof.
  intros E Hsplit Hbefore Hm%rule_hits_spec. rewrite blocker_any, E, Hsplit.
  rewrite find_first; [done| |done].
  apply Forall_forall. intros q Hq.
  destruct (rule_hits command q) eqn:Hhit; [|done].
  apply rule_hits_spec in Hhit. by destruct (Hbefore q Hq).
Qed.

Lemma blocker_reports_first_rule_witness :
  let command := "sudo npm publish" in
  let before := ["rm\s+-rf\s+/"; "chmod\s+777"] in
  read_field "command" (record "command" command) = inr (JString command) ∧
  (∀ q, q ∈ before → ¬ contains_match q command) ∧
  contains_match "sudo\s+" command ∧
  contains_match "npm\s+publish" command ∧
  run (dangerous_command_blocker (record "command" command)) =
    Result 2 []
      [ "BLOCKED: Dangerous command pattern detected: " +:+ "sudo\s+";
        "Command attempted: " +:+ command;
        LF +:+ "If this is intentional, run manually outside Claude Code." ]
      [] None.
Proof.
  assert (∀ q, q ∈ ["rm\s+-rf\s+/"; "chmod\s+777"] →
               ¬ contains_match q "sudo npm publish") as Hb.
  { intros q Hin Hm%rule_hits_spec. revert Hm.
    repeat (apply elem_of_cons in Hin as [->|Hin]; [by vm_compute|]).
    by apply elem_of_nil in Hin. }
  assert (contains_match "sudo\s+" "sudo npm publish") as Hs
    by (apply rule_hits_spec; vm_compute; reflexivity).
  split; [apply read_field_record|]. split; [exact Hb|]. split; [exact Hs|].
  split; [apply rule_hits_spec; vm_compute; reflexivity|].
  exact (blocker_reports_first_rule _ _ ["rm\s+-rf\s+/"; "chmod\s+777"] _ _
           (read_field_record "command" "sudo npm publish") eq_refl Hb Hs).
Defined.

(** X3.  A command that contains none of [rm], [chmod], [sudo], [dd], [mkfs.],
    [npm], [git], [mv] and [>] is never blocked. *)
Theorem blocker_allows_without_stem input command :
  read_field "command" input = inr (JString command) →
  Forall (λ stem, Text.str_in stem command = false) rule_stems →
  run (dangerous_command_blocker input) = allowed_silently.
Proof.
  intros E Hstems.
  apply (blocker_allowed input command E).
  intros pattern Hin Hm.
  pose proof (rule_needs_stem command) as H2.
  apply list_elem_of_lookup in Hin as [i Hi].
  destruct (Forall2_lookup_l _ _ _ _ _ H2 Hi) as (stem & Hs & Himp).
  rewrite Forall_lookup in Hstems. specialize (Hstems _ _ Hs). cbn in Hstems.
  rewrite (Himp Hm) in Hstems. discriminate.
Qed.

Lemma blocker_allows_without_stem_witness :
  let command := "cargo build --release" in
  read_field "command" (record "command" command) = inr (JString command) ∧
  Forall (λ stem, Text.str_in stem command = false) rule_stems ∧
  run (dangerous_command_blocker (record "command" command)) = allowed_silently.
Proof.
  assert (Forall (λ stem, Text.str_in stem "cargo build --release" = false)
            rule_stems) as Hs.
  { unfold rule_stems.
    repeat (apply List.Forall_cons; [vm_compute; reflexivity|]).
    apply List.Forall_nil. }
  split; [apply read_field_record|]. split; [exact Hs|].
  exact (blocker_allows_without_stem _ _
           (read_field_record "command" "cargo build --release") Hs).
Defined.

(** X4.  A forced push is blocked however it is embedded: [git], white space,
    [push], anything on the same line, [--force], with any text before and
    after (so [--force-with-lease] too). *)
Theorem blocker_blocks_force_push input pre ws mid post :
  read_field "command" input =
    inr (JString (pre +:+ ("git" +:+ ws +:+ "push" +:+ mid +:+ "--force") +:+ post)) →
  blank ws →
  one_line mid →
  exit_status (run (dangerous_command_blocker input)) = 2.
Proof.
  intros E Hws%blank_matches Hmid%one_line_matches.
  apply (blocker_blocked _ _ "git\s+push.*--force" E); [set_solver|].
  eexists _, pre, _, post. split; [by vm_compute|]. split; [done|].
  change "git" with (String "g" EmptyString +:+ String "i" EmptyString
                     +:+ String "t" EmptyString).
  change "push" with (String "p" EmptyString +:+ String "u" EmptyString
                      +:+ String "s" EmptyString +:+ String "h" EmptyString).
  change "--force" with
    (String "-" EmptyString +:+ String "-" EmptyString +:+ String "f" EmptyString
     +:+ String "o" EmptyString +:+ String "r" EmptyString
     +:+ String "c" EmptyString +:+ String "e" EmptyString +:+ EmptyString).
  rewrite !append_assoc.
  repeat (constructor; [by (constructor || done)|]).
  constructor.
Qed.

Lemma blocker_blocks_force_push_witness :
  let input :=
    record "command"
      ("cd repo && " +:+ ("git" +:+ "  " +:+ "push" +:+ " origin main "
                          +:+ "--force") +:+ "-with-lease") in
  blank "  " ∧ one_line " origin main " ∧
  exit_status (run (dangerous_command_blocker input)) = 2.
Proof.
  assert (blank "  ") as Hb.
  { split; [done|]. intros pre c post Heq.
    destruct pre as [|a [|b [|]]]; cbv in Heq; by simplify_eq. }
  assert (one_line " origin main ") as Ho.
  { intros pre c post Heq.
    assert (Text.str_in (String c EmptyString) " origin main " = true) as Hin.
    { apply str_in_spec. exists pre, post. by rewrite Heq. }
    destruct (Ascii.eqb_spec c "010") as [->|Hne]; [by vm_compute in Hin|].
    unfold is_dot. by apply negb_true_iff, Ascii.eqb_neq. }
  split; [exact Hb|]. split; [exact Ho|].
  exact (blocker_blocks_force_push _ "cd repo && " "  " " origin main "
           "-with-lease" (read_field_record _ _) Hb Ho).
Defined.

(** X5.  The rules are not anchored to words: [sudo] followed by white space is
    blocked after any text, a longer word that ends in it included. *)
Theorem blocker_blocks_sudo_anywhere input pre ws post :
  read_field "command" input = inr (JString (pre +:+ ("sudo" +:+ ws) +:+ post)) →
  blank ws →
  exit_status (run (dangerous_command_blocker input)) = 2.
Proof.
  intros E Hws%blank_matches.
  apply (blocker_blocked _ _ "sudo\s+" E); [set_solver|].
  eexists _, pre, _, post. split; [by vm_compute|]. split; [done|].
  change "sudo" with (String "s" EmptyString +:+ String "u" EmptyString
                      +:+ String "d" EmptyString +:+ String "o" EmptyString).
  rewrite !append_assoc.
  repeat (constructor; [by (constructor || done)|]).
  rewrite <- (append_nil_r ws). by constructor; [|constructor].
Qed.

Lemma blocker_blocks_sudo_anywhere_witness :
  blank " " ∧
  exit_status
    (run (dangerous_command_blocker
            (record "command" ("echo pseu" +:+ ("sudo" +:+ " ") +:+ "random")))) = 2.
Proof.
  assert (blank " ") as Hb.
  { split; [done|]. intros pre c post Heq.
    destruct pre as [|a [|]]; cbv in Heq; by simplify_eq. }
  split; [exact Hb|].
  exact (blocker_blocks_sudo_anywhere _ "echo pseu" " " "random"
           (read_field_record _ _) Hb).
Defined.

End BlockerProperties.

Section GuardProperties.

(** X8.  The guard ends with status 2 exactly when a file-name rule occurs in
    the lowered path or a directory rule occurs in the path as given; in
    every other case it ends with status 0 and writes nothing. *)
Theorem guard_blocks_exactly_on_match input file_path :
  read_field "file_path" input = inr (JString file_path) →
  (exit_status (run (sensitive_file_guard input)) = 2 ↔
     (∃ pattern pre post,
        pattern ∈ sensitive_patterns ∧
        Text.lower file_path = pre +:+ pattern +:+ post) ∨
     (∃ dir_pattern pre post,
        dir_pattern ∈ sensitive_dirs ∧
        file_path = pre +:+ dir_pattern +:+ post)) ∧
  (exit_status (run (sensitive_file_guard input)) ≠ 2 →
   run (sensitive_file_guard input) = allowed_silently).
Proof.
  intros E. rewrite guard_any, E.
  pose proof (find_is_Some
    (λ pattern, Text.str_in pattern (Text.lower file_path)) sensitive_patterns)
    as Hn.
  pose proof (find_is_Some
    (λ dir_pattern, Text.str_in dir_pattern file_path) sensitive_dirs) as Hd.
  setoid_rewrite str_in_spec in Hn. setoid_rewrite str_in_spec in Hd.
  destruct (List.find _ sensitive_patterns) as [p|].
  - split; [|done]. split; [|done]. intros _. left.
    destruct (proj1 Hn) as (q & Hq & pre & post & Heq); [by eexists|].
    by exists q, pre, post.
  - destruct (List.find _ sensitive_dirs) as [d|].
    + split; [|done]. split; [|done]. intros _. right.
      destruct (proj1 Hd) as (q & Hq & pre & post & Heq); [by eexists|].
      by exists q, pre, post.
    + split; [|done]. split; [done|].
      intros [(q & pre & post & Hq & Heq) | (q & pre & post & Hq & Heq)].
      * destruct (proj2 Hn) as [? [=]]. eauto.
      * destruct (proj2 Hd) as [? [=]]. eauto.
Qed.

Lemma guard_blocks_exactly_on_match_witness :
  let file_path := "/srv/PRIVATE/notes.txt" in
  read_field "file_path" (record "file_path" file_path)
  = inr (JString file_path) ∧
  exit_status (run (sensitive_file_guard (record "file_path" file_path))) ≠ 2 ∧
  run (sensitive_file_guard (record "file_path" file_path)) = allowed_silently.
Proof.
  assert (exit_status
            (run (sensitive_file_guard
                    (record "file_path" "/srv/PRIVATE/notes.txt"))) ≠ 2)
    as Hne by (vm_compute; discriminate).
  split; [apply read_field_record|]. split; [exact Hne|].
  exact (proj2 (guard_blocks_exactly_on_match _ _
                  (read_field_record "file_path" "/srv/PRIVATE/notes.txt")) Hne).
Defined.

(** X10.  The file-name tier does not see letter case: when the guard names a
    file-name rule for one path, it names the same rule, with status 2,
    for every casing variant of the path. *)
Theorem guard_names_same_rule_for_casings input input' p p' pattern line1 line3 :
  read_field "file_path" input = inr (JString p) →
  read_field "file_path" input' = inr (JString p') →
  casing_variant p p' →
  run (sensitive_file_guard input) =
    Result 2 [] [line1; "Pattern matched: " +:+ pattern; line3] [] None →
  run (sensitive_file_guard input') =
    Result 2 []
      [ "BLOCKED: Sensitive file access detected: " +:+ p';
        "Pattern matched: " +:+ pattern;
        LF +:+ "To edit sensitive files, use your editor directly." ]
      [] None.
Proof.
  intros E E' Hv. rewrite !guard_any, E, E'. unfold casing_variant in Hv.
  rewrite <- Hv.
  destruct (List.find _ sensitive_patterns) as [q|].
  - intros [= _ Hq _]. apply (inj (String.app _)) in Hq. by subst q.
  - by destruct (List.find _ sensitive_dirs).
Qed.

Lemma guard_names_same_rule_for_casings_witness :
  let p := "/home/u/.aws/credentials" in
  let p' := "/home/u/.AWS/Credentials" in
  casing_variant p p' ∧
  run (sensitive_file_guard (record "file_path" p')) =
    Result 2 []
      [ "BLOCKED: Sensitive file access detected: " +:+ p';
        "Pattern matched: " +:+ ".aws/credentials";
        LF +:+ "To edit sensitive files, use your editor directly." ]
      [] None.
Proof.
  assert (casing_variant "/home/u/.aws/credentials" "/home/u/.AWS/Credentials")
    as Hv by (vm_compute; reflexivity).
  split; [exact Hv|].
  apply (guard_names_same_rule_for_casings
           (record "file_path" "/home/u/.aws/credentials") _
           "/home/u/.aws/credentials" "/home/u/.AWS/Credentials"
           ".aws/credentials"
           ("BLOCKED: Sensitive file access detected: "
              +:+ "/home/u/.aws/credentials")
           (LF +:+ "To edit sensitive files, use your editor directly.")
           (read_field_record _ _) (read_field_record _ _) Hv).
  vm_compute. reflexivity.
Defined.

(** X11.  Three file-name rules can never be the one reported: [.env.local],
    [.env.production] and [.env.development] stand after [.env], which
    occurs wherever they do. *)
Theorem guard_never_reports_env_variants input file_path pattern line1 line3 :
  read_field "file_path" input = inr (JString file_path) →
  run (sensitive_file_guard input) =
    Result 2 [] [line1; "Pattern matched: " +:+ pattern; line3] [] None →
  pattern ∈ sensitive_patterns ∧
  pattern ∉ [".env.local"; ".env.production"; ".env.development"].
Proof.
  intros E. rewrite guard_any, E.
  destruct (List.find _ sensitive_patterns) as [q|] eqn:F;
    [|by destruct (List.find _ sensitive_dirs)].
  intros [= _ Hq _]. apply (inj (String.app _)) in Hq. subst q.
  pose proof (List.find_some _ _ F) as [Hin Hhit]. cbn beta in Hhit.
  split; [by apply list_elem_of_In|].
  intros Hbad.
  assert (Text.str_in ".env" pattern = true) as Hsub.
  { repeat (apply elem_of_cons in Hbad as [->|Hbad]; [by vm_compute|]).
    by apply elem_of_nil in Hbad. }
  pose proof (str_in_trans _ _ _ Hsub Hhit) as Henv.
  unfold sensitive_patterns in F. cbn [List.find] in F. rewrite Henv in F.
  injection F as <-.
  repeat (apply elem_of_cons in Hbad as [?|Hbad]; [done|]).
  by apply elem_of_nil in Hbad.
Qed.

Lemma guard_never_reports_env_variants_witness :
  run (sensitive_file_guard (record "file_path" "/app/.env.production")) =
    Result 2 []
      [ "BLOCKED: Sensitive file access detected: /app/.env.production";
        "Pattern matched: " +:+ ".env";
        LF +:+ "To edit sensitive files, use your editor directly." ]
      [] None ∧
  ".env" ∉ [".env.local"; ".env.production"; ".env.development"].
Proof.
  assert (run (sensitive_file_guard (record "file_path" "/app/.env.production")) =
            Result 2 []
              [ "BLOCKED: Sensitive file access detected: /app/.env.production";
                "Pattern matched: " +:+ ".env";
                LF +:+ "To edit sensitive files, use your editor directly." ]
              [] None) as Hrun by (vm_compute; reflexivity).
  split; [exact Hrun|].
  exact (proj2 (guard_never_reports_env_variants _ _ _ _ _
                  (read_field_record "file_path" "/app/.env.production") Hrun)).
Defined.

(** X12.  The directory rule [secrets/] never decides: when the guard blocks
    with the directory message, no file-name rule occurs in the lowered
    path and the path contains [.ssh/], [.aws/], [.gnupg/] or [private/]. *)
Theorem guard_directory_block_is_never_secrets input file_path :
  read_field "file_path" input = inr (JString file_path) →
  run (sensitive_file_guard input) =
    Result 2 [] ["BLOCKED: File in sensitive directory: " +:+ file_path] [] None →
  Forall (λ pattern, Text.str_in pattern (Text.lower file_path) = false)
    sensitive_patterns ∧
  Text.str_in "secrets/" file_path = false ∧
  ∃ dir_pattern,
    dir_pattern ∈ [".ssh/"; ".aws/"; ".gnupg/"; "private/"] ∧
    Text.str_in dir_pattern file_path = true.
Proof.
  intros E. rewrite guard_any, E.
  destruct (List.find _ sensitive_patterns) as [q|] eqn:F; [done|].
  destruct (List.find _ sensitive_dirs) as [d|] eqn:D; [|done]. intros _.
  assert (∀ pattern, pattern ∈ sensitive_patterns →
            Text.str_in pattern (Text.lower file_path) = false) as Hnone.
  { intros pattern Hin. apply list_elem_of_In in Hin.
    apply (List.find_none _ _ F _ Hin). }
  assert (Text.str_in "secrets/" file_path = false) as Hsec.
  { destruct (Text.str_in "secrets/" file_path) eqn:Hs; [|done].
    apply str_in_spec in Hs as (pre & post & ->).
    rewrite <- (Hnone "secret") by set_solver. symmetry.
    apply str_in_spec. exists (Text.lower pre), ("s/" +:+ Text.lower post).
    by rewrite !lower_app. }
  split; [by apply Forall_forall|]. split; [done|].
  pose proof (List.find_some _ _ D) as [Hin Hhit]. cbn beta in Hhit.
  exists d. split; [|done].
  apply list_elem_of_In in Hin. unfold sensitive_dirs in Hin.
  repeat (apply elem_of_cons in Hin as [->|Hin]; [set_solver || congruence|]).
  by apply elem_of_nil in Hin.
Qed.

Lemma guard_directory_block_is_never_secrets_witness :
  let file_path := "/home/u/.gnupg/pubring.kbx" in
  run (sensitive_file_guard (record "file_path" file_path)) =
    Result 2 [] ["BLOCKED: File in sensitive directory: " +:+ file_path] [] None ∧
  Text.str_in "secrets/" file_path = false.
Proof.
  assert (run (sensitive_file_guard
                 (record "file_path" "/home/u/.gnupg/pubring.kbx")) =
            Result 2 []
              ["BLOCKED: File in sensitive directory: "
                 +:+ "/home/u/.gnupg/pubring.kbx"] [] None)
    as Hrun by (vm_compute; reflexivity).
  split; [exact Hrun|].
  exact (proj1 (proj2 (guard_directory_block_is_never_secrets _ _
                         (read_field_record _ _) Hrun))).
Defined.

End GuardProperties.

(** ** More on the side-effect hooks *)

Section SideEffectCoverage.

Lemma format_on_text w input file_path :
  read_field "file_path" input = inr (JString file_path) →
  run (auto_format w input) = format_outcome w file_path.
Proof.
  intros E.
  rewrite (format_by_field w input (record "file_path" file_path))
    by (by rewrite read_field_record).
  unfold record. rewrite format_run by apply record_well_formed.
  cbn zeta. by rewrite record_target.
Qed.

Lemma test_on_text w input file_path :
  read_field "file_path" input = inr (JString file_path) →
  run (test_on_change w input) = test_outcome w file_path.
Proof.
  intros E.
  rewrite (test_by_field w input (record "file_path" file_path))
    by (by rewrite read_field_record).
  unfold record. rewrite test_run by apply record_well_formed.
  cbn zeta. by rewrite record_target.
Qed.

Lemma slice_join n s : Text.slice_to n s +:+ Text.slice_from n s = s.
Proof.
  revert s. induction n as [|n IH]; intros [|c s]; try done.
  cbn [Text.slice_to Text.slice_from]. by rewrite append_cons, IH.
Qed.

(** [root + ext == path] *)
Lemma splitext_join p : (Text.splitext p).1 +:+ (Text.splitext p).2 = p.
Proof.
  unfold Text.splitext. destruct (_ && _); cbn [fst snd].
  - apply slice_join.
  - apply append_nil_r.
Qed.

(** The formatter table and the list of test extensions have the same
    entries. *)
Lemma formatters_keys ext :
  is_Some (formatters !! ext) ↔ ext ∈ test_extensions.
Proof.
  unfold test_extensions. split.
  - intros [f Hf]. unfold formatters in Hf.
    apply elem_of_list_to_map_2 in Hf.
    by apply (list_elem_of_fmap_2 fst) in Hf.
  - intros Hin.
    repeat (apply elem_of_cons in Hin as [->|Hin]; [by eexists|]).
    by apply elem_of_nil in Hin.
Qed.

End SideEffectCoverage.

Section AnyInputProperties.

Lemma text_or_not (v : json) : (∃ s, v = JString s) ∨ (∀ s, v ≠ JString s).
Proof. destruct v; try (by right); left; by eexists. Qed.

(** X13.  Whatever the input, a security hook writes nothing on standard
    output and spawns nothing, and it ends in one of three ways: status 0
    in silence; status 1 with the traceback of an uncaught exception and
    no line of its own; status 2 with a first line on standard error that
    begins with BLOCKED. *)
Theorem security_hooks_outcomes input :
  security_outcome (run (dangerous_command_blocker input)) ∧
  security_outcome (run (sensitive_file_guard input)).
Proof.
  split.
  - rewrite blocker_any.
    destruct (read_field "command" input) as [[cls msg]|[| | | |command| |]];
      try (split; [done|]; split; [done|]; right; left; by eexists _, _).
    destruct (List.find _ _) as [pattern|].
    + split; [done|]. split; [done|]. right. right.
      split; [done|]. split; [done|]. by eexists _, _.
    + split; [done|]. split; [done|]. by left.
  - rewrite guard_any.
    destruct (read_field "file_path" input) as [[cls msg]|[| | | |file_path| |]];
      try (split; [done|]; split; [done|]; right; left; by eexists _, _).
    destruct (List.find _ sensitive_patterns) as [pattern|].
    + split; [done|]. split; [done|]. right. right.
      split; [done|]. split; [done|]. by eexists _, _.
    + destruct (List.find _ sensitive_dirs) as [d|].
      * split; [done|]. split; [done|]. right. right.
        split; [done|]. split; [done|]. by eexists _, _.
      * split; [done|]. split; [done|]. by left.
Qed.

(** X14.  The default of [.get] covers a missing key only: a [command] or
    [file_path] that is present but is no text ([null] included) ends the
    security hook with status 1, a [TypeError] from [re.search] in the
    blocker, an [AttributeError] from [.lower()] in the guard. *)
Theorem security_hooks_crash_on_non_text_target input v :
  (∀ s, v ≠ JString s) →
  (read_field "command" input = inr v →
   run (dangerous_command_blocker input) =
     crashed TypeError
       ("expected string or bytes-like object, got '" +:+ type_name v +:+ "'")) ∧
  (read_field "file_path" input = inr v →
   run (sensitive_file_guard input) =
     crashed AttributeError
       ("'" +:+ type_name v +:+ "' object has no attribute 'lower'")).
Proof.
  intros Hv. split; intros E.
  - rewrite blocker_any, E. destruct v; try done. by destruct (Hv s).
  - rewrite guard_any, E. destruct v; try done. by destruct (Hv s).
Qed.

Lemma security_hooks_crash_on_non_text_target_witness :
  let input := Document (JObject {[ "tool_input" :=
                 JObject {[ "command" := JNull ]} ]}) in
  (∀ s, JNull ≠ JString s) ∧
  read_field "command" input = inr JNull ∧
  exit_status (run (dangerous_command_blocker input)) = 1.
Proof.
  assert (∀ s, JNull ≠ JString s) as Hv by (intros s; discriminate).
  assert (read_field "command"
            (Document (JObject {[ "tool_input" :=
               JObject {[ "command" := JNull ]} ]})) = inr JNull) as E
    by (vm_compute; reflexivity).
  split; [exact Hv|]. split; [exact E|].
  rewrite (proj1 (security_hooks_crash_on_non_text_target _ _ Hv) E).
  reflexivity.
Defined.

(** X15.  Whatever the input and the machine, a side-effect hook never
    ends with the deny status 2: the status is 0 or 1, or the 120 that the
    interpreter reports when the flush of standard output fails at exit;
    and the hook spawns at most one command. *)
Theorem side_effect_hooks_outcomes w input :
  side_effect_outcome (run (auto_format w input)) ∧
  side_effect_outcome (run (test_on_change w input)) ∧
  exit_status (run (auto_format w input)) ≠ 2 ∧
  exit_status (run (test_on_change w input)) ≠ 2.
Proof.
  assert (side_effect_outcome (run (auto_format w input))) as Hf.
  { destruct (read_field "file_path" input) as [[cls msg]|v] eqn:E.
    - unfold run, auto_format. rewrite decode_any, E. split; cbn; auto.
    - destruct (text_or_not v) as [[s ->]|Hn].
      + rewrite (format_on_text _ _ _ E).
        unfold format_outcome, format_confirmation, confirmed.
        repeat case_match; split; cbn; auto.
      + destruct (format_no_text w input v E Hn) as [_ [->|(c & m & ->)]];
          split; cbn; auto. }
  assert (side_effect_outcome (run (test_on_change w input))) as Ht.
  { destruct (read_field "file_path" input) as [[cls msg]|v] eqn:E.
    - unfold run, test_on_change. rewrite decode_any, E. split; cbn; auto.
    - destruct (text_or_not v) as [[s ->]|Hn].
      + rewrite (test_on_text _ _ _ E).
        unfold test_outcome, test_confirmation, confirmed.
        repeat case_match; split; cbn; auto.
      + rewrite (test_no_text w input v E Hn).
        destruct (truthy v); split; cbn; auto. }
  split; [done|]. split; [done|].
  destruct Hf as [[-> | [-> | ->]] _], Ht as [[-> | [-> | ->]] _]; done.
Qed.

(** X16.  A target that counts as false ([null], [false], [0], the empty text,
    the empty list, the empty mapping) makes both side-effect hooks end
    with status 0 in silence, before the file system is asked anything;
    a target that counts as true and is no text ends the testing hook
    with a [TypeError] from [os.path.splitext]. *)
Theorem side_effect_hooks_on_non_text_target w input v :
  read_field "file_path" input = inr v →
  (truthy v = false →
   run (auto_format w input) = allowed_silently ∧
   run (test_on_change w input) = allowed_silently) ∧
  (truthy v = true → (∀ s, v ≠ JString s) →
   run (test_on_change w input) =
     crashed TypeError
       ("expected str, bytes or os.PathLike object, not " +:+ type_name v)).
Proof.
  intros E. split.
  - intros Hfalse. destruct (text_or_not v) as [[s ->]|Hn].
    + destruct s; [|done].
      by rewrite (format_on_text _ _ _ E), (test_on_text _ _ _ E).
    + split.
      * by apply (format_no_text w input v E Hn).
      * by rewrite (test_no_text w input v E Hn), Hfalse.
  - intros Htrue Hv. rewrite (test_no_text w input v E) by done.
    by rewrite Htrue.
Qed.

Lemma side_effect_hooks_on_non_text_target_witness :
  let input := Document (JObject {[ "tool_input" :=
                 JObject {[ "file_path" := JNull ]} ]}) in
  read_field "file_path" input = inr JNull ∧
  truthy JNull = false ∧
  run (auto_format bare_machine input) = allowed_silently ∧
  run (test_on_change bare_machine input) = allowed_silently.
Proof.
  assert (read_field "file_path"
            (Document (JObject {[ "tool_input" :=
               JObject {[ "file_path" := JNull ]} ]})) = inr JNull) as E
    by (vm_compute; reflexivity).
  split; [exact E|]. split; [reflexivity|].
  exact (proj1 (side_effect_hooks_on_non_text_target bare_machine _ _ E)
           eq_refl).
Defined.

(** X17.  A hook sees nothing of its input but its own field: two inputs that
    give the same [tool_input.command] (or the same failure to read it)
    end the blocker alike, and the same for [tool_input.file_path] and the
    three other hooks.  Other keys of the record and of [tool_input] do not
    matter. *)
Theorem hooks_read_one_field w input input' :
  (read_field "command" input = read_field "command" input' →
   run (dangerous_command_blocker input) = run (dangerous_command_blocker input')) ∧
  (read_field "file_path" input = read_field "file_path" input' →
   run (sensitive_file_guard input) = run (sensitive_file_guard input') ∧
   run (auto_format w input) = run (auto_format w input') ∧
   run (test_on_change w input) = run (test_on_change w input')).
Proof.
  split; [apply blocker_by_field|]. intros E.
  split; [by apply guard_by_field|].
  split; [by apply format_by_field | by apply test_by_field].
Qed.

Lemma hooks_read_one_field_witness :
  let input := record "command" "ls" in
  let input' :=
    Document (JObject {[ "tool_input" :=
                JObject (<[ "file_path" := JString "/etc/.env" ]>
                           {[ "command" := JString "ls" ]}) ]}) in
  read_field "command" input = read_field "command" input' ∧
  run (dangerous_command_blocker input) = run (dangerous_command_blocker input').
Proof.
  assert (read_field "command" (record "command" "ls") =
          read_field "command"
            (Document (JObject {[ "tool_input" :=
               JObject (<[ "file_path" := JString "/etc/.env" ]>
                          {[ "command" := JString "ls" ]}) ]}))) as E
    by (vm_compute; reflexivity).
  split; [exact E|].
  exact (proj1 (hooks_read_one_field empty_disk _ _) E).
Defined.

End AnyInputProperties.

Section FormatterProperties.

(** X18.  A path whose extension is not one of [.ts], [.tsx], [.js], [.jsx],
    [.py] is left alone by the formatting hook on any machine: status 0,
    nothing spawned, nothing written. *)
Theorem formatter_skips_other_extensions w input file_path :
  read_field "file_path" input = inr (JString file_path) →
  (Text.splitext file_path).2 ∉ test_extensions →
  run (auto_format w input) = allowed_silently.
Proof.
  intros E Hext. rewrite (format_on_text _ _ _ E). unfold format_outcome.
  destruct (negb _); [done|].
  destruct (formatters !! _) as [f|] eqn:Hf; [|done].
  destruct Hext. apply formatters_keys. by eexists.
Qed.

Lemma formatter_skips_other_extensions_witness :
  read_field "file_path" (record "file_path" "/docs/notes.md")
  = inr (JString "/docs/notes.md") ∧
  ((Text.splitext "/docs/notes.md").2 ∉ test_extensions) ∧
  run (auto_format (machine (Some 1%N) 0) (record "file_path" "/docs/notes.md"))
  = allowed_silently.
Proof.
  assert ((Text.splitext "/docs/notes.md").2 ∉ test_extensions) as Hext.
  { intros Hin%formatters_keys. revert Hin. vm_compute. by intros [? [=]]. }
  split; [apply read_field_record|]. split; [exact Hext|].
  exact (formatter_skips_other_extensions _ _ _ (read_field_record _ _) Hext).
Defined.



(** X20.  A formatter that comes back in time with a return code other than 0
    makes the hook end with status 1 without a word on either stream: the
    [CalledProcessError] clause only exits. *)
Theorem formatter_fails_without_message w input file_path formatter t returncode :
  read_field "file_path" input = inr (JString file_path) →
  path_exists w file_path = true →
  formatters !! (Text.splitext file_path).2 = Some formatter →
  spawn w (formatter ++ [file_path]) None = Runs t returncode →
  timed_out t 10 = false →
  returncode ≠ 0 →
  run (auto_format w input) = Result 1 [] [] [formatter ++ [file_path]] None.
Proof.
  intros E Hex Hf Hs Ht Hrc. rewrite (format_on_text _ _ _ E).
  unfold format_outcome.
  rewrite (formatter_path_nonempty _ _ Hf), Hex, Hf. cbn. rewrite Hs, Ht.
  by destruct (Z.eqb_spec returncode 0).
Qed.

Lemma formatter_fails_without_message_witness :
  let w := machine (Some 800%N) 2 in
  path_exists w "/src/app.ts" = true ∧
  formatters !! (Text.splitext "/src/app.ts").2 = Some ["npx"; "prettier"; "--write"] ∧
  run (auto_format w (record "file_path" "/src/app.ts")) =
    Result 1 [] [] [["npx"; "prettier"; "--write"] ++ ["/src/app.ts"]] None.
Proof.
  assert (formatters !! (Text.splitext "/src/app.ts").2
          = Some ["npx"; "prettier"; "--write"]) as Hf
    by (vm_compute; reflexivity).
  split; [reflexivity|]. split; [exact Hf|].
  apply (formatter_fails_without_message (machine (Some 800%N) 2) _ _ _
           (Some 800%N) 2 (read_field_record _ _) eq_refl Hf eq_refl eq_refl).
  discriminate.
Defined.

(** X21.  A spawn that fails for another reason than a missing executable (no
    permission, say) is handled differently by the two hooks: the
    formatting hook has no clause for it and dies with the traceback and
    status 1; the testing hook prints "Could not run tests:" with the
    text of the exception and ends with status 0. *)
Theorem launch_failure_crashes_formatter_not_tests w input file_path formatter cwd msg :
  read_field "file_path" input = inr (JString file_path) →
  path_exists w file_path = true →
  formatters !! (Text.splitext file_path).2 = Some formatter →
  test_target file_path = true →
  getcwd w = Some cwd →
  spawn w (formatter ++ [file_path]) None = LaunchFails msg →
  spawn w (test_cmd (Text.splitext file_path).2 file_path) (Some cwd)
  = LaunchFails msg →
  run (auto_format w input) =
    Result 1 [] [] [formatter ++ [file_path]] (Some (OSError, msg)) ∧
  run (test_on_change w input) =
    Result 0 [] ["Could not run tests: " +:+ msg]
      [test_cmd (Text.splitext file_path).2 file_path] None.
Proof.
  intros E Hex Hf Hgo Hcwd Hs1 Hs2.
  rewrite (format_on_text _ _ _ E), (test_on_text _ _ _ E).
  unfold format_outcome, test_outcome.
  rewrite (formatter_path_nonempty _ _ Hf), Hex, Hf, Hgo, Hcwd. cbn.
  by rewrite Hs1, Hs2.
Qed.

Lemma launch_failure_crashes_formatter_not_tests_witness :
  let w := World (λ _, true) (λ _, false) (Some "/work")
             (λ _ _, LaunchFails "[Errno 13] Permission denied") in
  let input := record "file_path" "/src/app.js" in
  test_target "/src/app.js" = true ∧
  exit_status (run (auto_format w input)) = 1 ∧
  traceback (run (auto_format w input))
  = Some (OSError, "[Errno 13] Permission denied") ∧
  exit_status (run (test_on_change w input)) = 0.
Proof.
  assert (test_target "/src/app.js" = true) as Hgo by (vm_compute; reflexivity).
  split; [exact Hgo|].
  destruct (launch_failure_crashes_formatter_not_tests
              (World (λ _, true) (λ _, false) (Some "/work")
                 (λ _ _, LaunchFails "[Errno 13] Permission denied"))
              (record "file_path" "/src/app.js") "/src/app.js"
              ["npx"; "prettier"; "--write"] "/work"
              "[Errno 13] Permission denied"
              (read_field_record _ _) eq_refl) as [-> ->];
    try (vm_compute; reflexivity).
  by repeat split.
Defined.

(** X22.  What the formatting hook spawns, if anything, is the formatter of the
    table for the extension followed by the path as given, and then the
    path ends with that extension. *)
Theorem formatter_command_line w input file_path :
  read_field "file_path" input = inr (JString file_path) →
  spawned (run (auto_format w input)) = [] ∨
  ∃ formatter root ext,
    formatters !! ext = Some formatter ∧
    ext ∈ test_extensions ∧
    file_path = root +:+ ext ∧
    path_exists w file_path = true ∧
    spawned (run (auto_format w input)) = [formatter ++ [file_path]].
Proof.
  intros E. rewrite (format_on_text _ _ _ E). unfold format_outcome.
  destruct (Text.nonempty file_path); [|by left].
  destruct (path_exists w file_path) eqn:Hex; [|by left]. cbn [andb negb].
  destruct (formatters !! _) as [f|] eqn:Hf; [|by left]. right.
  exists f, (Text.splitext file_path).1, (Text.splitext file_path).2.
  split; [done|]. split; [apply formatters_keys; by eexists|].
  split; [by rewrite splitext_join|]. split; [done|].
  cbn zeta. destruct (spawn w _ None) as [| |t rc]; try done.
  destruct (timed_out t 10); [done|]. destruct (negb _); [done|].
  unfold format_confirmation, confirmed.
  destruct (stdout_write w _); try done. by destruct (stdout_flush_error w).
Qed.

Lemma formatter_command_line_witness :
  read_field "file_path" (record "file_path" "/src/ui/App.tsx")
  = inr (JString "/src/ui/App.tsx") ∧
  spawned (run (auto_format bare_machine (record "file_path" "/src/ui/App.tsx")))
  = [["npx"; "prettier"; "--write"; "/src/ui/App.tsx"]].
Proof.
  split; [apply read_field_record|].
  destruct (formatter_command_line bare_machine _ _
              (read_field_record "file_path" "/src/ui/App.tsx"))
    as [Hnone | (f & root & ext & _ & _ & _ & _ & Hsp)].
  - vm_compute in Hnone. discriminate.
  - vm_compute. reflexivity.
Defined.

End FormatterProperties.

Section TesterProperties.

(** X23.  When the working directory is gone, [os.getcwd] raises inside the
    [try] and the clause for a missing test runner takes it: the testing
    hook spawns nothing, writes nothing and ends with status 0. *)
Theorem tester_is_silent_without_working_directory w input file_path :
  read_field "file_path" input = inr (JString file_path) →
  getcwd w = None →
  run (test_on_change w input) = allowed_silently.
Proof.
  intros E Hcwd. rewrite (test_on_text _ _ _ E). unfold test_outcome.
  rewrite Hcwd. by destruct (negb _).
Qed.

Lemma tester_is_silent_without_working_directory_witness :
  let w := World (λ _, true) (λ _, false) None (λ _ _, Runs (Some 1%N) 1) in
  test_target "/src/app.py" = true ∧
  run (test_on_change w (record "file_path" "/src/app.py")) = allowed_silently.
Proof.
  split; [vm_compute; reflexivity|].
  exact (tester_is_silent_without_working_directory
           (World (λ _, true) (λ _, false) None (λ _ _, Runs (Some 1%N) 1))
           _ _ (read_field_record "file_path" "/src/app.py") eq_refl).
Defined.

(** X24.  When the test command comes back within 60 seconds, the testing
    hook reports the result and names the file.  A return code other than
    0 gives the warning on standard error and status 1.  Return code 0
    gives the confirmation on standard output and status 0 when standard
    output takes the text and can be flushed at exit, and status 120 when
    that flush fails; when [print] itself fails (the stream cannot encode
    the check mark, or the write fails), [except Exception] takes the
    error: "Could not run tests:" with its text on standard error,
    nothing on standard output, status 0. *)
Theorem tester_reports_the_result w input file_path cwd t returncode :
  read_field "file_path" input = inr (JString file_path) →
  test_target file_path = true →
  getcwd w = Some cwd →
  let argv := test_cmd (Text.splitext file_path).2 file_path in
  let note := "✓ Tests passing for " +:+ file_path in
  spawn w argv (Some cwd) = Runs t returncode →
  timed_out t 60 = false →
  (returncode ≠ 0 →
   run (test_on_change w input) =
     Result 1 [] ["⚠️ Tests failed after editing " +:+ file_path] [argv] None) ∧
  (returncode = 0 → stdout_write w note = Written →
   stdout_flush_error w = None →
   run (test_on_change w input) = Result 0 [note] [] [argv] None) ∧
  (returncode = 0 → stdout_write w note = Written →
   ∀ msg, stdout_flush_error w = Some msg →
   run (test_on_change w input) =
     Result 120 [note] [] [argv] (Some (OSError, msg))) ∧
  (returncode = 0 →
   ∀ msg, stdout_write w note = Unencodable msg ∨
          stdout_write w note = WriteFails msg →
   run (test_on_change w input) =
     Result 0 [] ["Could not run tests: " +:+ msg] [argv] None).
Proof.
  intros E Hgo Hcwd argv note Hs Ht. rewrite (test_on_text _ _ _ E).
  unfold test_outcome. rewrite Hgo, Hcwd. cbn [negb]. cbn zeta. fold argv.
  rewrite Hs, Ht. unfold test_confirmation, confirmed. fold note.
  split; [|split; [|split]].
  - intros Hrc. by destruct (Z.eqb_spec returncode 0).
  - intros -> Hw Hfl. cbn. by rewrite Hw, Hfl.
  - intros -> Hw msg Hfl. cbn. by rewrite Hw, Hfl.
  - intros -> msg [Hw|Hw]; cbn; by rewrite Hw.
Qed.

Lemma tester_reports_the_result_witness :
  let w := machine_with_ascii_stdout (Some 59999%N) 0 in
  let file_path := "/src/lib/util.ts" in
  test_target file_path = true ∧
  timed_out (Some 59999%N) 60 = false ∧
  stdout_write w ("✓ Tests passing for " +:+ file_path)
  = Unencodable "'ascii' codec can't encode character" ∧
  run (test_on_change w (record "file_path" file_path)) =
    Result 0 []
      ["Could not run tests: " +:+ "'ascii' codec can't encode character"]
      [test_cmd (Text.splitext file_path).2 file_path] None.
Proof.
  assert (test_target "/src/lib/util.ts" = true) as Hgo
    by (vm_compute; reflexivity).
  assert (stdout_write (machine_with_ascii_stdout (Some 59999%N) 0)
            ("✓ Tests passing for " +:+ "/src/lib/util.ts")
          = Unencodable "'ascii' codec can't encode character") as Hw
    by (vm_compute; reflexivity).
  split; [exact Hgo|]. split; [reflexivity|]. split; [exact Hw|].
  exact (proj2 (proj2 (proj2
           (tester_reports_the_result
              (machine_with_ascii_stdout (Some 59999%N) 0) _ _
              "/work" (Some 59999%N) 0
              (read_field_record "file_path" "/src/lib/util.ts")
              Hgo eq_refl eq_refl eq_refl))) eq_refl _ (or_introl Hw)).
Defined.

(** X25.  What the testing hook spawns, if anything: for a path that ends in
    [.py] the fixed [pytest] line, which does not name the file; for a
    path that ends in [.ts], [.tsx], [.js] or [.jsx] the [npm test] line
    with the path as its last argument.  A spawn happens only for a path
    that passes the skip tests. *)
Theorem tester_command_line w input file_path :
  read_field "file_path" input = inr (JString file_path) →
  spawned (run (test_on_change w input)) = [] ∨
  test_target file_path = true ∧
  ((∃ root, file_path = root +:+ ".py" ∧
            spawned (run (test_on_change w input))
            = [["pytest"; "-x"; "-q"; "--tb=short"]]) ∨
   (∃ root ext, ext ∈ [".ts"; ".tsx"; ".js"; ".jsx"] ∧
                file_path = root +:+ ext ∧
                spawned (run (test_on_change w input))
                = [["npm"; "test"; "--"; "--bail"; "--findRelatedTests";
                    file_path]])).
Proof.
  intros E. rewrite (test_on_text _ _ _ E). unfold test_outcome.
  destruct (test_target file_path) eqn:Hgo; [|by left]. cbn [negb].
  destruct (getcwd w) as [cwd|]; [|by left]. right. split; [done|].
  assert (∀ argv,
    spawned
      (match spawn w argv (Some cwd) with
       | NoSuchExecutable _ => Result 0 [] [] [argv] None
       | LaunchFails msg =>
           Result 0 [] ["Could not run tests: " +:+ msg] [argv] None
       | Runs t returncode =>
           if timed_out t 60
           then Result 0 [] ["Test timeout for " +:+ file_path] [argv] None
           else if negb (returncode =? 0)
           then Result 1 [] ["⚠️ Tests failed after editing " +:+ file_path]
                  [argv] None
           else test_confirmation w file_path argv
       end) = [argv]) as Hsp.
  { intros argv. destruct (spawn w argv (Some cwd)) as [| |t rc]; try done.
    destruct (timed_out t 60); [done|]. destruct (negb _); [done|].
    unfold test_confirmation, confirmed.
    destruct (stdout_write w _); try done. by destruct (stdout_flush_error w). }
  cbn zeta. rewrite Hsp. clear Hsp.
  unfold test_target in Hgo.
  apply andb_prop in Hgo as [[[_ Hext%bool_decide_eq_true]%andb_prop _]%andb_prop _].
  pose proof (splitext_join file_path) as Hjoin.
  destruct (Text.splitext file_path) as [root ext]. cbn [fst snd] in *.
  unfold test_cmd. case_bool_decide as Hpy.
  - left. exists root. by subst ext.
  - right. exists root, ext. split; [|done].
    unfold test_extensions in Hext. set_solver.
Qed.

Lemma tester_command_line_witness :
  read_field "file_path" (record "file_path" "/srv/api/models.py")
  = inr (JString "/srv/api/models.py") ∧
  spawned (run (test_on_change bare_machine
                  (record "file_path" "/srv/api/models.py")))
  = [["pytest"; "-x"; "-q"; "--tb=short"]].
Proof.
  split; [apply read_field_record|].
  destruct (tester_command_line bare_machine _ _
              (read_field_record "file_path" "/srv/api/models.py"))
    as [Hnone | _].
  - vm_compute in Hnone. discriminate.
  - vm_compute. reflexivity.
Defined.

End TesterProperties.

(** ** Paths without an extension *)

Section ExtensionFacts.
Import Text.

Lemma without_cons c a s : a ≠ c → without c s → without c (String a s).
Proof.
  intros Hne Hs [|b pre] post; rewrite ?append_nil_l, ?append_cons.
  - congruence.
  - intros [= _ H]. by apply (Hs pre post).
Qed.

Lemma without_inv c a s : without c (String a s) → a ≠ c ∧ without c s.
Proof.
  intros H. split.
  - intros ->. by apply (H EmptyString s).
  - intros pre post ->. by apply (H (String a pre) post).
Qed.

Lemma rfind_from_without c s : ∀ i, without c s → rfind_from i c s = -1.
Proof.
  induction s as [|a s IH]; intros i H; [done|].
  apply without_inv in H as [Hne Hs]. cbn [rfind_from].
  rewrite (IH _ Hs). cbn. by rewrite (proj2 (Ascii.eqb_neq a c) Hne).
Qed.

Lemma rfind_from_app_without c a b :
  ∀ i, without c b → rfind_from i c (a +:+ b) = rfind_from i c a.
Proof.
  induction a as [|x a IH]; intros i H.
  - rewrite append_nil_l. by apply rfind_from_without.
  - rewrite append_cons. cbn [rfind_from]. by rewrite IH.
Qed.

Lemma rfind_from_bound c s :
  ∀ i, 0 ≤ i →
       rfind_from i c s = -1 ∨
       i ≤ rfind_from i c s < i + Z.of_nat (String.length s).
Proof.
  induction s as [|a s IH]; intros i Hi; [by left|].
  cbn [rfind_from String.length]. destruct (IH (i + 1)) as [->|Hr]; [lia| |].
  - cbn. destruct (Ascii.eqb a c); [right; lia | by left].
  - destruct (Z.leb_spec 0 (rfind_from (i + 1) c s)); [right; lia | lia].
Qed.

Lemma rfind_from_last c a b :
  ∀ i, 0 ≤ i → without c b →
       rfind_from i c (a +:+ String c b) = i + Z.of_nat (String.length a).
Proof.
  induction a as [|x a IH]; intros i Hi Hb.
  - rewrite append_nil_l. cbn [rfind_from String.length].
    rewrite (rfind_from_without _ _ _ Hb). cbn. rewrite Ascii.eqb_refl. lia.
  - rewrite append_cons. cbn [rfind_from String.length].
    rewrite IH by (lia || done).
    destruct (Z.leb_spec 0 (i + 1 + Z.of_nat (String.length a))); lia.
Qed.

Lemma length_app_slash dir :
  String.length (dir +:+ String "/" EmptyString) = S (String.length dir).
Proof.
  induction dir as [|x d IH]; [done|].
  rewrite append_cons. cbn [String.length]. by rewrite IH.
Qed.

(** A last component without a dot, or with no dot but a leading one,
    has no extension. *)
Lemma splitext_plain dir name :
  without "." name → without "/" name →
  (splitext (dir +:+ "/" +:+ name)).2 = EmptyString ∧
  (splitext (dir +:+ "/." +:+ name)).2 = EmptyString.
Proof.
  intros Hdot Hsep. split.
  - unfold splitext, rfind.
    change (dir +:+ "/" +:+ name) with (dir +:+ String "/" name).
    rewrite (rfind_from_last "/" dir name 0) by (lia || done).
    rewrite (rfind_from_app_without "." dir (String "/" name))
      by (by apply without_cons).
    destruct (rfind_from_bound "." dir 0) as [->|Hr]; [lia| |].
    + destruct (Z.ltb_spec (0 + Z.of_nat (String.length dir)) (-1));
        [lia | done].
    + destruct (Z.ltb_spec (0 + Z.of_nat (String.length dir))
                  (rfind_from 0 "." dir)); [lia | done].
  - unfold splitext, rfind.
    change (dir +:+ "/." +:+ name) with (dir +:+ String "/" (String "." name)).
    rewrite (rfind_from_last "/" dir (String "." name) 0)
      by (lia || by apply without_cons).
    change (dir +:+ String "/" (String "." name))
      with (dir +:+ (String "/" EmptyString +:+ String "." name)).
    rewrite <- append_assoc.
    rewrite (rfind_from_last "." (dir +:+ String "/" EmptyString) name 0)
      by (lia || done).
    rewrite length_app_slash.
    replace (Z.to_nat (0 + Z.of_nat (S (String.length dir))
                       - (0 + Z.of_nat (String.length dir) + 1)))
      with O by lia.
    cbn [name_before_dot]. by rewrite andb_false_r.
Qed.

End ExtensionFacts.

Section ExtensionProperties.

(** X26.  A file whose name has no dot, or no dot but a leading one ([Makefile],
    [.bashrc], and also a file named just [.py]), has no extension for
    [os.path.splitext]: both side-effect hooks leave it alone on any
    machine, with status 0, nothing spawned and nothing written. *)
Theorem hooks_skip_names_without_extension w input file_path dir name :
  read_field "file_path" input = inr (JString file_path) →
  without "." name →
  without "/" name →
  file_path = dir +:+ "/" +:+ name ∨ file_path = dir +:+ "/." +:+ name →
  run (auto_format w input) = allowed_silently ∧
  run (test_on_change w input) = allowed_silently.
Proof.
  intros E Hdot Hsep Hshape.
  assert ((Text.splitext file_path).2 = EmptyString) as Hext.
  { destruct (splitext_plain dir name Hdot Hsep) as [H1 H2].
    by destruct Hshape as [-> | ->]. }
  rewrite (format_on_text _ _ _ E), (test_on_text _ _ _ E).
  unfold format_outcome, test_outcome, test_target. rewrite Hext. split.
  - by destruct (negb _).
  - cbn. by rewrite andb_false_r.
Qed.

End ExtensionProperties.

Section ExtensionWitness.

Lemma without_by_search c s :
  Text.str_in (String c EmptyString) s = false → without c s.
Proof.
  intros H pre post ->. rewrite (proj2 (str_in_spec _ _)) in H; [done|].
  by exists pre, post.
Qed.

Lemma hooks_skip_names_without_extension_witness :
  without "." "py" ∧ without "/" "py" ∧
  path_exists (machine (Some 1%N) 0) "/src/.py" = true ∧
  run (auto_format (machine (Some 1%N) 0) (record "file_path" "/src/.py"))
  = allowed_silently ∧
  run (test_on_change (machine (Some 1%N) 0) (record "file_path" "/src/.py"))
  = allowed_silently.
Proof.
  assert (without "." "py") as Hd by (apply without_by_search; reflexivity).
  assert (without "/" "py") as Hs by (apply without_by_search; reflexivity).
  split; [exact Hd|]. split; [exact Hs|]. split; [reflexivity|].
  exact (hooks_skip_names_without_extension (machine (Some 1%N) 0) _ "/src/.py"
           "/src" "py" (read_field_record _ _) Hd Hs (or_intror eq_refl)).
Defined.

End ExtensionWitness.

Section MoreRules.
Import Re.

(** X9.  Every file-name rule of the guard, not only three of them, blocks in
    any letter casing: a path with a piece that lowers to the rule ends
    the guard with status 2 and the three-line message of the file-name
    tier, whether or not the path also lies in a sensitive directory. *)
Theorem guard_blocks_every_name_rule_in_any_casing input file_path pattern :
  read_field "file_path" input = inr (JString file_path) →
  pattern ∈ sensitive_patterns →
  contains_any_case pattern file_path →
  ∃ reported,
    reported ∈ sensitive_patterns ∧
    run (sensitive_file_guard input) =
      Result 2 []
        [ "BLOCKED: Sensitive file access detected: " +:+ file_path;
          "Pattern matched: " +:+ reported;
          LF +:+ "To edit sensitive files, use your editor directly." ]
        [] None.
Proof.
  intros E Hin Hc%str_in_lower. rewrite guard_any, E.
  destruct (find_exists
              (λ p, Text.str_in p (Text.lower file_path)) _ _ Hin Hc)
    as (q & Hfind & _).
  rewrite Hfind. exists q. split; [|done].
  apply list_elem_of_In. by apply List.find_some in Hfind as [? _].
Qed.

Lemma guard_blocks_every_name_rule_in_any_casing_witness :
  let file_path := "/home/u/.ssh/ID_ED25519.pub" in
  "id_ed25519" ∈ sensitive_patterns ∧
  contains_any_case "id_ed25519" file_path ∧
  ∃ reported,
    run (sensitive_file_guard (record "file_path" file_path)) =
      Result 2 []
        [ "BLOCKED: Sensitive file access detected: " +:+ file_path;
          "Pattern matched: " +:+ reported;
          LF +:+ "To edit sensitive files, use your editor directly." ]
        [] None.
Proof.
  assert ("id_ed25519" ∈ sensitive_patterns) as Hin
    by (unfold sensitive_patterns; set_solver).
  assert (contains_any_case "id_ed25519" "/home/u/.ssh/ID_ED25519.pub") as Hc.
  { exists "/home/u/.ssh/", "ID_ED25519", ".pub". split; vm_compute; reflexivity. }
  split; [exact Hin|]. split; [exact Hc|].
  destruct (guard_blocks_every_name_rule_in_any_casing
              (record "file_path" "/home/u/.ssh/ID_ED25519.pub") _ _
              (read_field_record _ _) Hin Hc) as (q & _ & Hrun).
  exists q. exact Hrun.
Defined.

(** X6.  Any redirection into [/dev/] is blocked, [/dev/null] included, with
    or without white space after the [>]. *)
Theorem blocker_blocks_device_redirect input pre ws post :
  read_field "command" input
  = inr (JString (pre +:+ (">" +:+ ws +:+ "/dev/") +:+ post)) →
  (∀ a c b, ws = a +:+ String c b → is_space c = true) →
  exit_status (run (dangerous_command_blocker input)) = 2.
Proof.
  intros E Hws%spaces_match.
  apply (blocker_blocked _ _ ">\s*/dev/" E); [set_solver|].
  eexists _, pre, _, post. split; [by vm_compute|]. split; [done|].
  change ">" with (String ">" EmptyString).
  change "/dev/" with
    (String "/" EmptyString +:+ String "d" EmptyString +:+ String "e" EmptyString
     +:+ String "v" EmptyString +:+ String "/" EmptyString +:+ EmptyString).
  repeat (constructor; [by (constructor || done)|]).
  constructor.
Qed.

Lemma blocker_blocks_device_redirect_witness :
  (∀ a c b, EmptyString = a +:+ String c b → is_space c = true) ∧
  exit_status
    (run (dangerous_command_blocker
            (record "command"
               ("make 2" +:+ (">" +:+ "" +:+ "/dev/") +:+ "null")))) = 2.
Proof.
  assert (∀ a c b, EmptyString = a +:+ String c b → is_space c = true) as Hws.
  { intros a c b Heq. symmetry in Heq. by apply append_eq_nil in Heq as [_ ?]. }
  split; [exact Hws|].
  exact (blocker_blocks_device_redirect _ "make 2" "" "null"
           (read_field_record _ _) Hws).
Defined.

(** X7.  Every [mv] whose arguments are followed, after white space, by a
    slash is blocked, so every move to an absolute path: [mv], white
    space, anything on the same line, white space, [/]. *)
Theorem blocker_blocks_move_to_absolute_path input pre ws1 mid ws2 post :
  read_field "command" input
  = inr (JString (pre +:+ ("mv" +:+ ws1 +:+ mid +:+ ws2 +:+ "/") +:+ post)) →
  blank ws1 → one_line mid → blank ws2 →
  exit_status (run (dangerous_command_blocker input)) = 2.
Proof.
  intros E H1%blank_matches Hmid%one_line_matches H2%blank_matches.
  apply (blocker_blocked _ _ "mv\s+.*\s+/" E); [set_solver|].
  eexists _, pre, _, post. split; [by vm_compute|]. split; [done|].
  change "mv" with (String "m" EmptyString +:+ String "v" EmptyString).
  rewrite !append_assoc.
  repeat (constructor; [by (constructor || done)|]).
  rewrite <- (append_nil_r "/"). constructor; constructor.
Qed.

Lemma blocker_blocks_move_to_absolute_path_witness :
  blank " " ∧ one_line "a.txt" ∧
  exit_status
    (run (dangerous_command_blocker
            (record "command"
               ("" +:+ ("mv" +:+ " " +:+ "a.txt" +:+ " " +:+ "/") +:+ "tmp/b.txt"))))
  = 2.
Proof.
  assert (blank " ") as Hb.
  { split; [done|]. intros pre c post Heq.
    destruct pre as [|a [|]]; cbv in Heq; by simplify_eq. }
  assert (one_line "a.txt") as Ho.
  { intros pre c post Heq.
    assert (Text.str_in (String c EmptyString) "a.txt" = true) as Hin.
    { apply str_in_spec. exists pre, post. by rewrite Heq. }
    destruct (Ascii.eqb_spec c "010") as [->|Hne]; [by vm_compute in Hin|].
    unfold is_dot. by apply negb_true_iff, Ascii.eqb_neq. }
  split; [exact Hb|]. split; [exact Ho|].
  exact (blocker_blocks_move_to_absolute_path _ "" " " "a.txt" " " "tmp/b.txt"
           (read_field_record _ _) Hb Ho Hb).
Defined.

End MoreRules.

(** ** The status of the testing hook on any input *)

Section TesterStatus.

Ltac status_case :=
  cbn; repeat split; try done; auto;
  try (intros [H _]; by destruct H);
  try (by intros [_ [? [=]]]);
  try (by intros (? & ? & ? & ? & [=] & _));
  try (by intros (? & ? & ? & ? & _ & [=] & _)).

Lemma test_outcome_status w file_path :
  let r := test_outcome w file_path in
  (exit_status r = 1 ↔ tests_failed w r) ∧
  (exit_status r ≠ 1 → exit_status r = 0 ∨ exit_status r = 120) ∧
  (exit_status r = 120 ↔ stdout r ≠ [] ∧ is_Some (stdout_flush_error w)).
Proof.
  unfold test_outcome, tests_failed.
  destruct (test_target file_path); cbn [negb]; [|status_case].
  destruct (getcwd w) as [cwd|]; [|status_case].
  cbn zeta.
  destruct (spawn w _ (Some cwd)) as [msg|msg|t returncode] eqn:Hrun;
    [status_case; intros (a & c & t & k & [= <-] & [= <-] & ? & _); congruence ..|].
  destruct (timed_out t 60) eqn:Ht.
  { status_case.
    intros (a & c & t' & k & [= <-] & [= <-] & ? & ? & _). congruence. }
  destruct (Z.eqb_spec returncode 0) as [->|Hne]; cbn [negb].
  - unfold test_confirmation, confirmed.
    destruct (stdout_write w _);
      [destruct (stdout_flush_error w) as [e|] eqn:Hfl|..]; status_case;
      try (intros (a & c & t' & k & [= <-] & [= <-] & ? & ? & ?); congruence).
  - status_case. intros _.
    exists (test_cmd (Text.splitext file_path).2 file_path), cwd, t, returncode.
    by rewrite Hrun.
Qed.

Lemma test_target_skips file_path :
  (Text.splitext file_path).2 ∉ test_extensions ∨
  Text.str_in "test" (Text.lower file_path) = true ∨
  Text.str_in "__tests__" file_path = true ∨
  Text.str_in ".claude" file_path = true →
  test_target file_path = false.
Proof.
  unfold test_target. intros [H | [H | [H | H]]].
  - rewrite (bool_decide_eq_false_2 _ H). by rewrite andb_false_r.
  - rewrite H. cbn. by rewrite andb_false_r.
  - rewrite H, orb_true_r. cbn. by rewrite andb_false_r.
  - rewrite H. cbn. by rewrite andb_false_r.
Qed.

(** C9, as amended.  The testing hook ends with status 1 exactly when
    either it cannot get a path out of its input (the first lines fail on
    text that does not parse or on a document or [tool_input] that is no
    mapping, or [file_path] is a value that counts as true and is no
    text), in which case it dies of the uncaught exception with nothing
    spawned and nothing printed, or it has spawned the test command and
    that command came back within the 60 seconds with a return code other
    than 0.  In every other case the script ends with [sys.exit(0)]: the
    status is 0, or the 120 of the interpreter when the confirmation is
    in the buffer of standard output and the flush at exit fails.  In
    particular nothing is spawned and the status is 0 when the extension
    is not one of the test extensions or the path contains [test] (in any
    casing), [__tests__] or [.claude]. *)
Theorem C9_test_hook_status w input :
  let r := run (test_on_change w input) in
  (exit_status r = 1 ↔ no_path input ∨ tests_failed w r) ∧
  (no_path input → ∃ cls msg, r = crashed cls msg) ∧
  (exit_status r ≠ 1 → exit_status r = 0 ∨ exit_status r = 120) ∧
  (exit_status r = 120 ↔ stdout r ≠ [] ∧ is_Some (stdout_flush_error w)) ∧
  (∀ file_path,
     read_field "file_path" input = inr (JString file_path) →
     (Text.splitext file_path).2 ∉ test_extensions ∨
     Text.str_in "test" (Text.lower file_path) = true ∨
     Text.str_in "__tests__" file_path = true ∨
     Text.str_in ".claude" file_path = true →
     r = allowed_silently).
Proof.
  cbn zeta. destruct (read_field "file_path" input) as [[cls msg]|v] eqn:E.
  - assert (run (test_on_change w input) = crashed cls msg) as ->.
    { unfold run, test_on_change. by rewrite decode_any, E. }
    assert (no_path input) as Hno by (left; eauto).
    status_case; eauto.
  - destruct (text_or_not v) as [[file_path ->]|Hn].
    + rewrite (test_on_text _ _ _ E).
      assert (¬ no_path input) as Hno.
      { intros [(c & m & H) | (v & H & Hv & Hs)]; [congruence|].
        rewrite E in H. injection H as <-. by destruct (Hs file_path). }
      destruct (test_outcome_status w file_path) as (H1 & H2 & H3).
      split; [|split; [|split; [|split]]]; try done.
      * rewrite H1. split; [by right | by intros [?|?]].
      * intros p [= <-] Hskip. unfold test_outcome.
        by rewrite (test_target_skips _ Hskip).
    + rewrite (test_no_text w input v E Hn).
      destruct (truthy v) eqn:Hv.
      * assert (no_path input) as Hno by (right; eauto).
        status_case; eauto.
        intros p [= ->]. by destruct (Hn p).
      * assert (¬ no_path input) as Hno.
        { intros [(c & m & H) | (v' & H & Hv' & _)]; congruence. }
        status_case;
          try (intros [?|(? & ? & ? & ? & [=] & _)]; done);
          try (intros p [= ->]; by destruct (Hn p)).
Qed.

Lemma C9_witness :
  let w := machine (Some 2500%N) 1 in
  let r := run (test_on_change w (record "file_path" "/src/app.py")) in
  tests_failed w r ∧ exit_status r = 1.
Proof.
  assert (tests_failed (machine (Some 2500%N) 1)
            (run (test_on_change (machine (Some 2500%N) 1)
                    (record "file_path" "/src/app.py")))) as Hf.
  { exists ["pytest"; "-x"; "-q"; "--tb=short"], "/work", (Some 2500%N), 1.
    repeat split; vm_compute; (reflexivity || discriminate). }
  split; [exact Hf|].
  exact (proj2 (proj1 (C9_test_hook_status (machine (Some 2500%N) 1)
                         (record "file_path" "/src/app.py")))
           (or_intror Hf)).
Defined.

(** C9 as the specification has it fails on both sides.  The JSON array
    [[]] and a record whose [file_path] is the number 7 end the hook with
    status 1 although no test command was spawned; and when the tests
    pass but the reader of standard output has gone, the status is 120,
    neither 1 nor 0. *)
Lemma C9_counterexample :
  let w := machine (Some 2500%N) 0 in
  let seven := Document (JObject {[ "tool_input" :=
                 JObject {[ "file_path" := JInt 7 ]} ]}) in
  exit_status (run (test_on_change w (Document (JArray [])))) = 1 ∧
  spawned (run (test_on_change w (Document (JArray [])))) = [] ∧
  exit_status (run (test_on_change w seven)) = 1 ∧
  spawned (run (test_on_change w seven)) = [] ∧
  let r := run (test_on_change (machine_with_closed_pipe (Some 2500%N) 0)
                  (record "file_path" "/src/app.py")) in
  spawned r = [["pytest"; "-x"; "-q"; "--tb=short"]] ∧
  exit_status r = 120 ∧ exit_status r ≠ 0 ∧ exit_status r ≠ 1.
Proof. repeat split; (by vm_compute) || discriminate. Qed.

End TesterStatus.
